(** * Sysacad: the generic XML importer [scripts/subir_tabla.py]

    A shallow embedding of [get_text], [definir_tipo_de_valor] and
    [importar_datos], and the properties of the importer established on it.

    What Python and its libraries provide (the [str] methods, [int], [float],
    [os.path]) is taken through the interface [Builtins]; the XML tree, the
    SQLAlchemy session and the console are explicit data. *)

From stdpp Require Import gmap strings list fin_maps.
From Stdlib Require Import ZArith Ascii String SpecFloat.

Local Open Scope string_scope.
Local Open Scope Z_scope.
Local Open Scope list_scope.

(** ** The Python side *)

(** Functions of the Python runtime the script calls.  [int(s)] and
    [float(s)] raise [ValueError] on a string they cannot parse: that is the
    [None] of [py_int] and [py_float]. *)
Class Builtins := {
  pyfloat : Type;
  pyfloat_eq_dec :: EqDecision pyfloat;
  pyfloat_countable :: Countable pyfloat;
  str_strip : string → string;
  str_lower : string → string;
  py_int : string → option Z;
  py_float : string → option pyfloat;
  path_isabs : string → bool;
  path_join : string → string → string;
  path_abspath : string → string;
  path_dirname : string → string;
  dunder_file : string;
}.

(** ** The runtime on UTF-8 text

    An instance of [Builtins] for the examples.  A [str] is the string of
    the bytes of its UTF-8 encoding.  [str.strip] knows every blank of
    Unicode; [str.lower] knows the letters of ASCII and Latin-1; [int]
    reads ASCII digits; [float] is the IEEE double nearest to the literal;
    paths are POSIX paths. *)

Definition de_bytes (l : list nat) : string :=
  fold_right (λ n s, String (ascii_of_nat n) s) EmptyString l.

(** The characters for which [str.isspace] holds, in UTF-8: U+0009 to
    U+000D, U+001C to U+0020, U+0085, U+00A0, U+1680, U+2000 to U+200A,
    U+2028, U+2029, U+202F, U+205F, U+3000. *)
Definition blancos : list string :=
  map de_bytes
    [[9]; [10]; [11]; [12]; [13]; [28]; [29]; [30]; [31]; [32];
     [194; 133]; [194; 160]; [225; 154; 128];
     [226; 128; 128]; [226; 128; 129]; [226; 128; 130]; [226; 128; 131];
     [226; 128; 132]; [226; 128; 133]; [226; 128; 134]; [226; 128; 135];
     [226; 128; 136]; [226; 128; 137]; [226; 128; 138];
     [226; 128; 168]; [226; 128; 169]; [226; 128; 175];
     [226; 129; 159]; [227; 128; 128]]%nat.

(** [s] without the prefix [p], when it starts with it. *)
Fixpoint quita_prefijo (p s : string) : option string :=
  match p, s with
  | EmptyString, _ => Some s
  | String a p', String b s' =>
      if Ascii.eqb a b then quita_prefijo p' s' else None
  | String _ _, EmptyString => None
  end.

Fixpoint quita_alguno (ps : list string) (s : string) : option string :=
  match ps with
  | [] => None
  | p :: ps' =>
      match quita_prefijo p s with
      | Some r => Some r
      | None => quita_alguno ps' s
      end
  end.

(** Drops the strings of [ps] from the front of [s], at most [n] times. *)
Fixpoint quita_delante (ps : list string) (n : nat) (s : string) : string :=
  match n with
  | O => s
  | S n' =>
      match quita_alguno ps s with
      | Some r => quita_delante ps n' r
      | None => s
      end
  end.

Definition lstrip (s : string) : string :=
  quita_delante blancos (String.length s) s.

Definition rstrip (s : string) : string :=
  String.rev
    (quita_delante (map String.rev blancos) (String.length s) (String.rev s)).

(** [str.strip()]. *)
Definition utf8_strip (s : string) : string := rstrip (lstrip s).

(** [str.lower]: [A] to [Z], and the capital letters of Latin-1, which
    UTF-8 writes as byte 195 followed by a byte from 128 to 158 other than
    151 (the multiplication sign). *)
Fixpoint latin_lower (s : string) : string :=
  match s with
  | EmptyString => EmptyString
  | String a r =>
      let n := nat_of_ascii a in
      if Nat.leb 65 n && Nat.leb n 90 then
        String (ascii_of_nat (n + 32)) (latin_lower r)
      else if Nat.eqb n 195 then
        match r with
        | String b r' =>
            let m := nat_of_ascii b in
            String a
              (String
                 (if Nat.leb 128 m && Nat.leb m 158 && negb (Nat.eqb m 151)
                  then ascii_of_nat (m + 32) else b)
                 (latin_lower r'))
        | EmptyString => s
        end
      else String a (latin_lower r)
  end.

(** The letter of the other case, for an ASCII letter. *)
Definition otra_ascii (a : ascii) : option ascii :=
  let n := nat_of_ascii a in
  if Nat.leb 65 n && Nat.leb n 90 then Some (ascii_of_nat (n + 32))
  else if Nat.leb 97 n && Nat.leb n 122 then Some (ascii_of_nat (n - 32))
  else None.

(** The same for the second byte of a Latin-1 letter, after the byte 195:
    capitals from 128 to 158 without 151, small letters from 160 to 190
    without 183 (the division sign). *)
Definition otra_latin (b : ascii) : option ascii :=
  let n := nat_of_ascii b in
  if Nat.leb 128 n && Nat.leb n 158 && negb (Nat.eqb n 151)
  then Some (ascii_of_nat (n + 32))
  else if Nat.leb 160 n && Nat.leb n 190 && negb (Nat.eqb n 183)
  then Some (ascii_of_nat (n - 32))
  else None.

Definition misma_letra (otra : ascii → option ascii) (a b : ascii) : bool :=
  Ascii.eqb a b ||
  match otra a with
  | Some c => Ascii.eqb c b
  | None => false
  end.

(** Two strings that differ at most in the case of their letters. *)
Fixpoint sin_caja (s t : string) : bool :=
  match s, t with
  | EmptyString, EmptyString => true
  | String a r, String b r' =>
      if Nat.eqb (nat_of_ascii a) 195 then
        Ascii.eqb a b &&
        match r, r' with
        | String c u, String d u' => misma_letra otra_latin c d && sin_caja u u'
        | EmptyString, EmptyString => true
        | _, _ => false
        end
      else misma_letra otra_ascii a b && sin_caja r r'
  | _, _ => false
  end.

(** The lower case of an ASCII character, and of the second byte of a
    Latin-1 letter. *)
Definition baja_ascii (a : ascii) : ascii :=
  let n := nat_of_ascii a in
  if Nat.leb 65 n && Nat.leb n 90 then ascii_of_nat (n + 32) else a.

Definition baja_latin (b : ascii) : ascii :=
  let m := nat_of_ascii b in
  if Nat.leb 128 m && Nat.leb m 158 && negb (Nat.eqb m 151)
  then ascii_of_nat (m + 32) else b.

Definition digito (a : ascii) : option Z :=
  let n := nat_of_ascii a in
  if Nat.leb 48 n && Nat.leb n 57 then Some (Z.of_nat (n - 48)) else None.

(** Decimal digits, with single underscores between them as [int] allows;
    [antes] tells whether the previous character was a digit. *)
Fixpoint digitos (s : string) (acc : Z) (antes : bool) : option Z :=
  match s with
  | EmptyString => if antes then Some acc else None
  | String a r =>
      match digito a with
      | Some d => digitos r (10 * acc + d) true
      | None =>
          if Ascii.eqb a "_" && antes then digitos r acc false else None
      end
  end.

(** How many digits a string has. *)
Fixpoint cuenta_digitos (s : string) (n : Z) : Z :=
  match s with
  | EmptyString => n
  | String a r =>
      match digito a with
      | Some _ => cuenta_digitos r (n + 1)
      | None => cuenta_digitos r n
      end
  end.

(** [int(s)] in base ten: blanks around, a sign, digits; a literal of more
    than 4300 digits is refused ([sys.int_max_str_digits]). *)
Definition decimal_int (s : string) : option Z :=
  let s := utf8_strip s in
  if Z.ltb 4300 (cuenta_digitos s 0) then None
  else
    match s with
    | String "-" r => Z.opp <$> digitos r 0 false
    | String "+" r => digitos r 0 false
    | r => digitos r 0 false
    end.

(** *** [float(s)] *)

Global Instance spec_float_eq_dec : EqDecision spec_float.
Proof. solve_decision. Defined.

Definition spec_float_a_suma (f : spec_float)
  : bool + bool + unit + bool * positive * Z :=
  match f with
  | S754_zero s => inl (inl (inl s))
  | S754_infinity s => inl (inl (inr s))
  | S754_nan => inl (inr tt)
  | S754_finite s m e => inr (s, m, e)
  end.

Definition suma_a_spec_float (x : bool + bool + unit + bool * positive * Z)
  : spec_float :=
  match x with
  | inl (inl (inl s)) => S754_zero s
  | inl (inl (inr s)) => S754_infinity s
  | inl (inr _) => S754_nan
  | inr (s, m, e) => S754_finite s m e
  end.

Global Instance spec_float_countable : Countable spec_float.
Proof.
  apply (inj_countable' spec_float_a_suma suma_a_spec_float).
  intros []; reflexivity.
Defined.

(** The double nearest to [m * 10 ^ e], ties to even, with the sign
    [neg]: an integer is rounded as it is, a quotient by a power of ten
    through the division of two exact numbers. *)
Definition doble_de_decimal (neg : bool) (m : positive) (e : Z) : spec_float :=
  match e with
  | Zneg k =>
      SFdiv 53 1024 (S754_finite neg m 0) (S754_finite false (Pos.pow 10 k) 0)
  | _ =>
      binary_normalize 53 1024
        (if neg then Zneg m * 10 ^ e else Zpos m * 10 ^ e) 0 false
  end.

(** The string without its underscores, when each of them stands between
    two digits; [prev] is the character before. *)
Fixpoint sin_guiones (s : string) (prev : option ascii) : option string :=
  match s with
  | EmptyString =>
      match prev with
      | Some "_"%char => None
      | _ => Some EmptyString
      end
  | String a r =>
      if Ascii.eqb a "_" then
        match prev with
        | Some p =>
            match digito p with
            | Some _ => sin_guiones r (Some a)
            | None => None
            end
        | None => None
        end
      else
        match prev, digito a with
        | Some "_"%char, None => None
        | _, _ => String a <$> sin_guiones r (Some a)
        end
  end.

(** The digits at the front of a string: the number they continue from
    [acc], how many they are, and what follows them. *)
Fixpoint toma_digitos (s : string) (acc : Z) (n : nat) : Z * nat * string :=
  match s with
  | EmptyString => (acc, n, s)
  | String a r =>
      match digito a with
      | Some d => toma_digitos r (10 * acc + d) (S n)
      | None => (acc, n, s)
      end
  end.

Fixpoint ascii_lower (s : string) : string :=
  match s with
  | EmptyString => EmptyString
  | String a r =>
      let n := nat_of_ascii a in
      String (if Nat.leb 65 n && Nat.leb n 90 then ascii_of_nat (n + 32) else a)
        (ascii_lower r)
  end.

(** The exponent part: nothing, or [e] or [E], a sign, digits. *)
Definition exponente (s : string) : option Z :=
  match s with
  | EmptyString => Some 0
  | String c r =>
      if Ascii.eqb c "e" || Ascii.eqb c "E" then
        let '(neg, r) :=
          match r with
          | String "-" r' => (true, r')
          | String "+" r' => (false, r')
          | _ => (false, r)
          end in
        match toma_digitos r 0 0 with
        | (v, S _, EmptyString) => Some (if neg then - v else v)
        | _ => None
        end
      else None
  end.

(** An unsigned decimal literal: digits, a point, digits, with a digit on
    one side of the point at least, and an exponent. *)
Definition decimal (neg : bool) (s : string) : option spec_float :=
  let '(v1, n1, r1) := toma_digitos s 0 0 in
  let '(v2, n2, r2) :=
    match r1 with
    | String "." r => toma_digitos r v1 0
    | _ => (v1, O, r1)
    end in
  match (n1 + n2)%nat with
  | O => None
  | S _ =>
      match exponente r2 with
      | Some e =>
          Some
            match v2 with
            | Zpos m => doble_de_decimal neg m (e - Z.of_nat n2)
            | _ => S754_zero neg
            end
      | None => None
      end
  end.

(** [float(s)]: blanks around, underscores between digits, a sign, then
    [inf], [infinity] or [nan] in any case, or a decimal literal. *)
Definition decimal_float (s : string) : option spec_float :=
  match sin_guiones (utf8_strip s) None with
  | None => None
  | Some s =>
      let '(neg, r) :=
        match s with
        | String "-" r => (true, r)
        | String "+" r => (false, r)
        | _ => (false, s)
        end in
      let palabra := ascii_lower r in
      if String.eqb palabra "inf" || String.eqb palabra "infinity" then
        Some (S754_infinity neg)
      else if String.eqb palabra "nan" then Some S754_nan
      else decimal neg r
  end.

(** *** [os.path] on POSIX paths *)

Definition posix_isabs (p : string) : bool :=
  match p with
  | String "/" _ => true
  | _ => false
  end.

Fixpoint termina_en_barra (p : string) : bool :=
  match p with
  | EmptyString => false
  | String a EmptyString => Ascii.eqb a "/"
  | String _ r => termina_en_barra r
  end.

(** [os.path.join(a, b)]. *)
Definition posix_join (a b : string) : string :=
  if posix_isabs b then b
  else if String.eqb a "" || termina_en_barra a then a +:+ b
  else a +:+ "/" +:+ b.

(** The components of a path, split at the slashes. *)
Fixpoint componentes (p : string) (cur : string) : list string :=
  match p with
  | EmptyString => [String.rev cur]
  | String a r =>
      if Ascii.eqb a "/" then String.rev cur :: componentes r ""
      else componentes r (String a cur)
  end.

(** The components [os.path.normpath] keeps of an absolute path, the ones
    kept so far in reverse. *)
Fixpoint normalizar (cs : list string) (pila : list string) : list string :=
  match cs with
  | [] => rev pila
  | c :: cs' =>
      if String.eqb c "" || String.eqb c "." then normalizar cs' pila
      else if String.eqb c ".." then normalizar cs' (tail pila)
      else normalizar cs' (c :: pila)
  end.

Fixpoint unir (cs : list string) : string :=
  match cs with
  | [] => ""
  | [c] => c
  | c :: cs' => c +:+ "/" +:+ unir cs'
  end.

(** [os.path.abspath] of an absolute path: its normal form, which keeps
    two slashes at the front when the path starts with exactly two. *)
Definition posix_abspath (p : string) : string :=
  let barras :=
    match p with
    | String "/" (String "/" (String "/" _)) => "/"
    | String "/" (String "/" _) => "//"
    | _ => "/"
    end in
  barras +:+ unir (normalizar (componentes p "") []).

(** The string up to its last character [c], that character included. *)
Fixpoint hasta_ultimo (c : ascii) (s : string) : string :=
  match s with
  | EmptyString => EmptyString
  | String a r =>
      match hasta_ultimo c r with
      | EmptyString => if Ascii.eqb a c then String a EmptyString else EmptyString
      | h => String a h
      end
  end.

Fixpoint solo_barras (s : string) : bool :=
  match s with
  | EmptyString => true
  | String a r => Ascii.eqb a "/" && solo_barras r
  end.

Fixpoint sin_barras_delante (s : string) : string :=
  match s with
  | String "/" r => sin_barras_delante r
  | _ => s
  end.

(** [os.path.dirname]: the path up to its last slash, without the slashes
    at its end unless it is made of slashes. *)
Definition posix_dirname (p : string) : string :=
  let head := hasta_ultimo "/" p in
  if solo_barras head then head
  else String.rev (sin_barras_delante (String.rev head)).

#[export] Instance builtins_ascii : Builtins := {|
  pyfloat := spec_float;
  str_strip := utf8_strip;
  str_lower := latin_lower;
  py_int := decimal_int;
  py_float := decimal_float;
  path_isabs := posix_isabs;
  path_join := posix_join;
  path_abspath := posix_abspath;
  path_dirname := posix_dirname;
  dunder_file := "/srv/sysacad/scripts/subir_tabla.py";
|}.

(** The exception classes the handlers of [importar_datos] tell apart:
    [except ValueError], [except IntegrityError], [except Exception]. *)
Inductive excepcion := ValueError | IntegrityError | OtraExcepcion.

Inductive resultado (A : Type) :=
  | Ok (a : A)
  | Raise (e : excepcion).
Arguments Ok {A} a.
Arguments Raise {A} e.

Global Instance excepcion_eq_dec : EqDecision excepcion.
Proof. solve_decision. Defined.

(** SQLAlchemy column types, as the [isinstance] cascade of
    [definir_tipo_de_valor] sees them: [Text] derives from [String] and
    [BigInteger] from [Integer]; every other type is [ColOtro]. *)
Inductive col_type :=
  | ColString | ColText | ColInteger | ColBigInteger | ColFloat | ColBoolean
  | ColOtro.

Set Warnings "-register-all".

(** ** XML elements *)

(** An [xml.etree] element: its tag, its [text] ([None] when the element has
    no character data before its first child) and its children. *)
Inductive Element :=
  | Elem (tag : string) (text : option string) (children : list Element).

Definition tag (e : Element) : string := let (t, _, _) := e in t.
Definition text (e : Element) : option string := let (_, x, _) := e in x.
Definition children (e : Element) : list Element := let (_, _, c) := e in c.

(** A plain tag name: one character at least, each of them an ASCII
    letter, a digit, [_] or [-].  On such a name [find] and [findall] of
    [xml.etree] compare the name with the tag of each child; any other
    string they read as an ElementPath expression ([*], [a/b], [.//x]),
    which may select other elements or be refused with [SyntaxError]. *)
Definition caracter_simple (a : ascii) : bool :=
  let n := nat_of_ascii a in
  (Nat.leb 65 n && Nat.leb n 90) || (Nat.leb 97 n && Nat.leb n 122) ||
  (Nat.leb 48 n && Nat.leb n 57) || Nat.eqb n 95 || Nat.eqb n 45.

Fixpoint todos_simples (t : string) : bool :=
  match t with
  | EmptyString => true
  | String a r => caracter_simple a && todos_simples r
  end.

Definition nombre_simple (t : string) : bool :=
  negb (String.eqb t "") && todos_simples t.

(** [elem.find(t)] for a plain tag name ([nombre_simple]): the first child
    with that tag. *)
Definition find (t : string) (e : Element) : option Element :=
  List.find (λ c, String.eqb (tag c) t) (children e).

(** [elem.findall(t)] for a plain tag name ([nombre_simple]): the children
    with that tag, in document order. *)
Definition findall (t : string) (e : Element) : list Element :=
  List.filter (λ c, String.eqb (tag c) t) (children e).

Section Valores.
Context `{B : Builtins}.

(** The Python values a column can receive. *)
Inductive valor :=
  | VNone
  | VStr (s : string)
  | VInt (z : Z)
  | VFloat (f : pyfloat)
  | VBool (b : bool).

Global Instance valor_eq_dec : EqDecision valor.
Proof. solve_decision. Defined.

Definition valor_a_suma (v : valor) : unit + string + Z + pyfloat + bool :=
  match v with
  | VNone => inl (inl (inl (inl tt)))
  | VStr s => inl (inl (inl (inr s)))
  | VInt z => inl (inl (inr z))
  | VFloat f => inl (inr f)
  | VBool b => inr b
  end.

Definition suma_a_valor (x : unit + string + Z + pyfloat + bool) : valor :=
  match x with
  | inl (inl (inl (inl _))) => VNone
  | inl (inl (inl (inr s))) => VStr s
  | inl (inl (inr z)) => VInt z
  | inl (inr f) => VFloat f
  | inr b => VBool b
  end.

Global Instance valor_countable : Countable valor.
Proof.
  apply (inj_countable' valor_a_suma suma_a_valor).
  intros []; reflexivity.
Defined.

(** Truth value of a [str]: the empty string is false. *)
Definition str_truthy (s : string) : bool := negb (String.eqb s "").

(** [get_text(elem)]:
    [elem.text.strip() if (elem is not None and elem.text) else None]. *)
Definition get_text (elem : option Element) : option string :=
  match elem with
  | Some e =>
      match text e with
      | Some t => if str_truthy t then Some (str_strip t) else None
      | None => None
      end
  | None => None
  end.

(** The tuple of [v in ("1", "true", "t", "yes", "y", "si", "sí")]; the last
    token holds the two UTF-8 bytes of its accented letter. *)
Definition si_acentuado : string := "sí".

Definition tokens_verdaderos : list string :=
  ["1"; "true"; "t"; "yes"; "y"; "si"; si_acentuado].

Definition str_in (s : string) (l : list string) : bool :=
  existsb (String.eqb s) l.

(** [definir_tipo_de_valor(value, col_type)]. *)
Definition definir_tipo_de_valor (value : option string) (ct : col_type)
  : resultado valor :=
  match value with
  | None => Ok VNone
  | Some value =>
      match ct with
      | ColString | ColText => Ok (VStr value)
      | ColInteger | ColBigInteger =>
          match py_int value with
          | Some z => Ok (VInt z)
          | None => Raise ValueError
          end
      | ColFloat =>
          match py_float value with
          | Some f => Ok (VFloat f)
          | None => Raise ValueError
          end
      | ColBoolean =>
          let v := str_lower value in
          Ok (VBool (str_in v tokens_verdaderos))
      | ColOtro => Ok (VStr value)
      end
  end.

(** ** The ORM side *)

(** A row of the table, the [data] dict a model object is built from. *)
Abbreviation fila := (gmap string valor).

(** The rows of the table of the model, by primary-key value. *)
Abbreviation tabla := (gmap valor fila).

(** What [importar_datos] uses of a mapped class: its name, the columns of
    its table in order, the names of its primary-key columns, and what
    building the object and flushing its row into a table raises, beyond
    primary-key uniqueness ([None]: the row is accepted). *)
Record Model := {
  model_name : string;
  columns : list (string * col_type);
  primary_key : list string;
  restriccion : tabla → fila → option excepcion;
}.

(** [_model_columns(model)]: [{col.name: col.type for col in columns}], a
    dict in insertion order. *)
Definition _model_columns (model : Model) : list (string * col_type) :=
  columns model.

(** [next((c.name for c in model.__table__.primary_key.columns), "id")]. *)
Definition pk_name_de (model : Model) : string := hd "id" (primary_key model).

(** [data.get(k)]: [None] for a missing key. *)
Definition data_get (data : fila) (k : string) : valor :=
  default VNone (data !! k).

(** [db.session]: the committed rows and the objects added since the last
    commit or rollback. *)
Record Sesion := {
  filas : tabla;
  pendientes : list fila;
}.

Definition sesion_nueva (t : tabla) : Sesion :=
  {| filas := t; pendientes := [] |}.

(** The flush of a commit: each pending row goes in under its primary key,
    unless the key is taken or the table refuses the row. *)
Fixpoint flush (model : Model) (t : tabla) (pend : list fila) : resultado tabla :=
  match pend with
  | [] => Ok t
  | r :: pend' =>
      let k := data_get r (pk_name_de model) in
      match t !! k with
      | Some _ => Raise IntegrityError
      | None =>
          match restriccion model t r with
          | Some e => Raise e
          | None => flush model (<[k := r]> t) pend'
          end
      end
  end.

(** [db.session.commit()]: all pending rows or none; after a failure the
    pending objects stay in the session until it is rolled back. *)
Definition session_commit (model : Model) (ses : Sesion) : resultado unit * Sesion :=
  match flush model (filas ses) (pendientes ses) with
  | Ok t => (Ok tt, {| filas := t; pendientes := [] |})
  | Raise e => (Raise e, ses)
  end.

(** [db.session.add(obj)]. *)
Definition session_add (r : fila) (ses : Sesion) : Sesion :=
  {| filas := filas ses; pendientes := pendientes ses ++ [r] |}.

(** [db.session.rollback()]. *)
Definition session_rollback (ses : Sesion) : Sesion :=
  {| filas := filas ses; pendientes := [] |}.

(** [db.session.get(model, pk_val)] with a scalar identifier: SQLAlchemy
    refuses it unless the primary key has exactly one column. *)
Definition session_get (model : Model) (pk_val : valor) (ses : Sesion)
  : resultado (option fila) :=
  match primary_key model with
  | [_] => Ok (filas ses !! pk_val)
  | _ => Raise OtraExcepcion
  end.

(** ** The console and the file system *)

(** The lines [importar_datos] prints. *)
Inductive mensaje :=
  | MsgNoEncontrado (path : string)
  | MsgImportando (nombre path : string)
  | MsgErrorParseo
  | MsgDuplicado (pk : valor)
  | MsgErrorValor
  | MsgErrorIntegridad
  | MsgErrorItem
  | MsgResumen (nombre : string) (insertados duplicados errores : Z).

(** What is at a path: nothing ([os.path.exists] is false); a file
    [ET.parse] rejects with [ParseError]; something [ET.parse] fails on with
    another exception, which no handler of [importar_datos] catches (a
    directory, a file in an unknown encoding); or a document with its
    root. *)
Inductive archivo :=
  | NoExiste
  | MalFormado
  | Ilegible
  | Documento (root : Element).

(** ** [importar_datos] *)

(** The variables of one run: the session, the three counters and what has
    been printed. *)
Record Estado := {
  sesion : Sesion;
  insertados : Z;
  duplicados : Z;
  errores : Z;
  salida : list mensaje;
}.

(** Statements that read and write the variables of the run and may raise. *)
Definition M (A : Type) : Type := Estado → resultado A * Estado.

Definition ret {A} (a : A) : M A := λ st, (Ok a, st).

Definition lanzar {A} (e : excepcion) : M A := λ st, (Raise e, st).

Definition ligar {A C} (m : M A) (k : A → M C) : M C :=
  λ st,
    match m st with
    | (Ok a, st') => k a st'
    | (Raise e, st') => (Raise e, st')
    end.

Notation "'haz' x <- m ;; k" := (ligar m (λ x, k))
  (at level 10, x name, m at level 99, k at level 200, only parsing).

(** A pure computation that may raise. *)
Definition levantar {A} (r : resultado A) : M A := λ st, (r, st).

(** A statement on the session that may raise. *)
Definition en_sesion {A} (f : Sesion → resultado A * Sesion) : M A :=
  λ st,
    let (r, ses) := f (sesion st) in
    (r, {| sesion := ses; insertados := insertados st;
           duplicados := duplicados st; errores := errores st;
           salida := salida st |}).

(** [print(...)]. *)
Definition print (m : mensaje) : M unit :=
  λ st,
    (Ok tt, {| sesion := sesion st; insertados := insertados st;
               duplicados := duplicados st; errores := errores st;
               salida := salida st ++ [m] |}).

(** [insertados += 1], [duplicados += 1], [errores += 1]. *)
Definition mas_insertado : M unit :=
  λ st,
    (Ok tt, {| sesion := sesion st; insertados := insertados st + 1;
               duplicados := duplicados st; errores := errores st;
               salida := salida st |}).

Definition mas_duplicado : M unit :=
  λ st,
    (Ok tt, {| sesion := sesion st; insertados := insertados st;
               duplicados := duplicados st + 1; errores := errores st;
               salida := salida st |}).

Definition mas_error : M unit :=
  λ st,
    (Ok tt, {| sesion := sesion st; insertados := insertados st;
               duplicados := duplicados st; errores := errores st + 1;
               salida := salida st |}).

Section Llamada.

(** The arguments of the call.  A transform is a function of the raw text
    that returns a value or raises, and nothing else. *)
Variable model : Model.
Variable item_tag : string.
Variable field_map : option (gmap string string).
Variable pk_from : option string.
Variable transforms : option (gmap string (option string → resultado valor)).

(** [field_map = field_map or {}], [transforms = transforms or {}]. *)
Definition field_map' : gmap string string := default ∅ field_map.
Definition transforms' : gmap string (option string → resultado valor) :=
  default ∅ transforms.

Definition cols : list (string * col_type) := _model_columns model.
Definition pk_name : string := pk_name_de model.

(** The source tag of a column (lines 103 to 107):
    [xml_tag = field_map.get(col_name, col_name)], then
    [if col_name == pk_name and pk_from: xml_tag = pk_from]. *)
Definition xml_tag_de (col_name : string) : string :=
  let xml_tag := default col_name (field_map' !! col_name) in
  match pk_from with
  | Some desde =>
      if String.eqb col_name pk_name && str_truthy desde then desde else xml_tag
  | None => xml_tag
  end.

(** The value of a column for an item (lines 109 to 116). *)
Definition valor_de (item : Element) (col_name : string) (ct : col_type)
  : resultado valor :=
  let elem := find (xml_tag_de col_name) item in
  let raw := get_text elem in
  match transforms' !! col_name with
  | Some fn => fn raw
  | None => definir_tipo_de_valor raw ct
  end.

(** The loop over the columns (lines 101 to 118), from the dict built so
    far; the first column that raises ends it. *)
Fixpoint llenar_data (cs : list (string * col_type)) (item : Element)
    (data : fila) : resultado fila :=
  match cs with
  | [] => Ok data
  | (col_name, ct) :: cs' =>
      match valor_de item col_name ct with
      | Ok val => llenar_data cs' item (<[col_name := val]> data)
      | Raise e => Raise e
      end
  end.

Definition construir_data (item : Element) : resultado fila :=
  llenar_data cols item ∅.

(** The body of the [try] (lines 100 to 134). *)
Definition cuerpo (item : Element) : M unit :=
  haz data <- levantar (construir_data item) ;;
  let pk_val := data_get data pk_name in
  match pk_val with
  | VNone => lanzar ValueError
  | _ =>
      haz existente <- en_sesion (λ ses, (session_get model pk_val ses, ses)) ;;
      match existente with
      | Some _ =>
          haz _ <- print (MsgDuplicado pk_val) ;;
          mas_duplicado
      | None =>
          haz _ <- en_sesion (λ ses, (Ok tt, session_add data ses)) ;;
          haz _ <- en_sesion (session_commit model) ;;
          mas_insertado
      end
  end.

(** The line each handler prints. *)
Definition mensaje_error (e : excepcion) : mensaje :=
  match e with
  | ValueError => MsgErrorValor
  | IntegrityError => MsgErrorIntegridad
  | OtraExcepcion => MsgErrorItem
  end.

(** The handlers (lines 136 to 147): roll back, print, count. *)
Definition manejar (e : excepcion) : M unit :=
  haz _ <- en_sesion (λ ses, (Ok tt, session_rollback ses)) ;;
  haz _ <- print (mensaje_error e) ;;
  mas_error.

(** One iteration of the [for] loop. *)
Definition iteracion (st : Estado) (item : Element) : Estado :=
  match cuerpo item st with
  | (Ok _, st') => st'
  | (Raise e, st') => snd (manejar e st')
  end.

(** [for item in root.findall(item_tag)]. *)
Definition bucle (items : list Element) (st : Estado) : Estado :=
  fold_left iteracion items st.

(** [BASE_DIR] and the path of the XML file (lines 11, 68 to 71 and 77). *)
Definition BASE_DIR : string :=
  path_abspath (path_join (path_dirname dunder_file) "..").

Definition xml_file_path (nombre_archivo : string) : string :=
  let XML_RELATIVE_PATH :=
    if path_isabs nombre_archivo then nombre_archivo
    else path_join "archivados_xml" nombre_archivo in
  path_abspath (path_join BASE_DIR XML_RELATIVE_PATH).

(** The state in which the loop starts (lines 94 to 96), in a fresh session
    on the table, after the first line has been printed. *)
Definition estado_inicial (t : tabla) (ya : list mensaje) : Estado :=
  {| sesion := sesion_nueva t; insertados := 0; duplicados := 0;
     errores := 0; salida := ya |}.

(** [importar_datos(nombre_archivo, model, item_tag, field_map, pk_from,
    transforms)], run on a file system and on the rows of the table: the
    rows it leaves and what it prints (the function returns [None]).
    [db.create_all()] creates tables and no row, and does not show here.
    On [Ilegible] the exception of [ET.parse] leaves the call after the
    first line was printed. *)
Definition importar_datos (fs : string → archivo) (t : tabla)
    (nombre_archivo : string) : tabla * list mensaje :=
  let xml_file_path := xml_file_path nombre_archivo in
  match fs xml_file_path with
  | NoExiste => (t, [MsgNoEncontrado xml_file_path])
  | MalFormado =>
      (t, [MsgImportando (model_name model) xml_file_path; MsgErrorParseo])
  | Ilegible => (t, [MsgImportando (model_name model) xml_file_path])
  | Documento root =>
      let st :=
        bucle (findall item_tag root)
          (estado_inicial t [MsgImportando (model_name model) xml_file_path]) in
      (filas (sesion st),
       (salida st ++
          [MsgResumen (model_name model) (insertados st) (duplicados st)
             (errores st)])%list)
  end.

(** ** What one iteration does, read off the table

    The outcome of an item: a column raised; the primary key resolved to
    [None]; [session.get] refused the identifier; the key is in the table;
    the commit raised; the row went in. *)
Inductive clase :=
  | CErrorDatos (e : excepcion)
  | CSinPk
  | CPkCompuesta
  | CDuplicado (pk : valor)
  | CRechazado (e : excepcion)
  | CInsertado (pk : valor) (data : fila).

Definition clasificar (t : tabla) (item : Element) : clase :=
  match construir_data item with
  | Raise e => CErrorDatos e
  | Ok data =>
      let pk_val := data_get data pk_name in
      if decide (pk_val = VNone) then CSinPk
      else
        match primary_key model with
        | [_] =>
            match t !! pk_val with
            | Some _ => CDuplicado pk_val
            | None =>
                match restriccion model t data with
                | Some e => CRechazado e
                | None => CInsertado pk_val data
                end
            end
        | _ => CPkCompuesta
        end
  end.

(** The table after an item of that outcome. *)
Definition tabla_tras (c : clase) (t : tabla) : tabla :=
  match c with
  | CInsertado pk data => <[pk := data]> t
  | _ => t
  end.

(** The outcomes of the items of a run, in order. *)
Fixpoint clases (t : tabla) (items : list Element) : list clase :=
  match items with
  | [] => []
  | item :: items' =>
      let c := clasificar t item in
      c :: clases (tabla_tras c t) items'
  end.

Definition es_rechazo (c : clase) : bool :=
  match c with
  | CRechazado _ => true
  | _ => false
  end.

(** The state after an iteration of that outcome. *)
Definition con_error (e : excepcion) (st : Estado) : Estado :=
  {| sesion := sesion_nueva (filas (sesion st));
     insertados := insertados st; duplicados := duplicados st;
     errores := errores st + 1;
     salida := salida st ++ [mensaje_error e] |}.

Definition aplicar (c : clase) (st : Estado) : Estado :=
  match c with
  | CErrorDatos e | CRechazado e => con_error e st
  | CSinPk => con_error ValueError st
  | CPkCompuesta => con_error OtraExcepcion st
  | CDuplicado pk =>
      {| sesion := sesion st;
         insertados := insertados st; duplicados := duplicados st + 1;
         errores := errores st;
         salida := salida st ++ [MsgDuplicado pk] |}
  | CInsertado pk data =>
      {| sesion := sesion_nueva (<[pk := data]> (filas (sesion st)));
         insertados := insertados st + 1; duplicados := duplicados st;
         errores := errores st;
         salida := salida st |}
  end.

Definition es_insertado (c : clase) : bool :=
  match c with
  | CInsertado _ _ => true
  | _ => false
  end.

Definition es_duplicado (c : clase) : bool :=
  match c with
  | CDuplicado _ => true
  | _ => false
  end.

Definition es_error (c : clase) : bool :=
  negb (es_insertado c) && negb (es_duplicado c).

(** How many outcomes of a kind a run has. *)
Definition cuantos (p : clase → bool) (cs : list clase) : Z :=
  Z.of_nat (List.length (List.filter p cs)).

(** The table after the items of a run. *)
Definition tabla_final (t : tabla) (items : list Element) : tabla :=
  fold_left (λ t item, tabla_tras (clasificar t item) t) items t.

(** The outcome a record has on a table that already holds the row its
    first import put in. *)
Definition reclasificar (c : clase) : clase :=
  match c with
  | CInsertado pk _ => CDuplicado pk
  | _ => c
  end.

(** The session holds no pending object. *)
Definition limpia (st : Estado) : Prop := pendientes (sesion st) = [].

(** A redirect of the primary key applies to a column: the column is the
    primary key and [pk_from] is a non-empty string. *)
Definition redirigida (col_name : string) : Prop :=
  col_name = pk_name ∧ ∃ desde, pk_from = Some desde ∧ desde ≠ "".

(** A text that [int] or [float] rejects, for a column of that type. *)
Definition malformado (ct : col_type) (s : string) : Prop :=
  match ct with
  | ColInteger | ColBigInteger => py_int s = None
  | ColFloat => py_float s = None
  | _ => False
  end.

(** ** Text extraction and coercion *)

Lemma str_truthy_true (s : string) : str_truthy s = true ↔ s ≠ "".
Proof.
  unfold str_truthy. destruct (String.eqb_spec s ""); simpl; split; congruence.
Qed.

Lemma str_truthy_false (s : string) : str_truthy s = false ↔ s = "".
Proof.
  unfold str_truthy. destruct (String.eqb_spec s ""); simpl; split; congruence.
Qed.

Lemma str_in_In (s : string) (l : list string) : str_in s l = true ↔ In s l.
Proof.
  unfold str_in. rewrite existsb_exists. split.
  - intros (x & Hx & Heq). apply String.eqb_eq in Heq. by subst.
  - intros Hin. exists s. split; [done | apply String.eqb_refl].
Qed.

(** C8, as the code has it: the extraction is null exactly when the
    sub-element is absent or its text is missing or empty; any other text,
    blank or not, comes back stripped, so a text of blanks only comes back
    as the empty string. *)
Theorem get_text_stripped (elem : option Element) :
  (get_text elem = None ↔
     elem = None ∨ ∃ e, elem = Some e ∧ (text e = None ∨ text e = Some "")) ∧
  (∀ e t, elem = Some e → text e = Some t → t ≠ "" →
     get_text elem = Some (str_strip t)) ∧
  (∀ e t, elem = Some e → text e = Some t → t ≠ "" → str_strip t = "" →
     get_text elem = Some "").
Proof.
  assert (Hsome : ∀ e t, elem = Some e → text e = Some t → t ≠ "" →
            get_text elem = Some (str_strip t)).
  { intros e t -> Ht Hne. unfold get_text. rewrite Ht.
    apply str_truthy_true in Hne. by rewrite Hne. }
  split; [| split].
  - split.
    + destruct elem as [e |]; [| by left]. intros Hnone. right. exists e.
      split; [done |]. destruct (text e) as [t |] eqn:Ht; [| by left].
      right. destruct (decide (t = "")) as [-> | Hne]; [done |].
      rewrite (Hsome e t eq_refl Ht Hne) in Hnone. discriminate.
    + intros [-> | (e & -> & [Ht | Ht])]; unfold get_text; [done | |];
        by rewrite Ht.
  - exact Hsome.
  - intros e t He Ht Hne Hblank. rewrite <- Hblank. by apply (Hsome e).
Qed.

(** On a non-null string a Boolean column gets [True] exactly when the
    lower-cased string is one of the seven tokens, [False] otherwise, and
    the coercion raises nothing. *)
Lemma definir_boolean_tokens (s : string) :
  (definir_tipo_de_valor (Some s) ColBoolean = Ok (VBool true) ↔
     In (str_lower s) ["1"; "true"; "t"; "yes"; "y"; "si"; "sí"]) ∧
  (definir_tipo_de_valor (Some s) ColBoolean = Ok (VBool false) ↔
     ¬ In (str_lower s) ["1"; "true"; "t"; "yes"; "y"; "si"; "sí"]) ∧
  (∀ e, definir_tipo_de_valor (Some s) ColBoolean ≠ Raise e).
Proof.
  change ["1"; "true"; "t"; "yes"; "y"; "si"; "sí"] with tokens_verdaderos.
  unfold definir_tipo_de_valor. cbv zeta.
  pose proof (str_in_In (str_lower s) tokens_verdaderos) as Hin.
  destruct (str_in (str_lower s) tokens_verdaderos); split_and!.
  - split; [intros _; by apply Hin | done].
  - split; [discriminate |]. intros Hno. exfalso. apply Hno. by apply Hin.
  - discriminate.
  - split; [discriminate |]. intros Hyes. apply Hin in Hyes. discriminate.
  - split; [| done]. intros _ Hyes. apply Hin in Hyes. discriminate.
  - discriminate.
Qed.

(** C4: the coercion by target type.  A null value stays null for every
    type; a text comes back unchanged for the text types and for an
    unrecognized type; for an integer type it is what [int] reads and for a
    floating type what [float] reads; a text that [int] or [float] does not
    read raises [ValueError]; nothing else is raised, and nothing is raised
    on any other input; a text that is there never becomes null. *)
Theorem definir_tipo_de_valor_spec (value : option string) (ct : col_type) :
  (value = None → definir_tipo_de_valor value ct = Ok VNone) ∧
  (∀ s, value = Some s → ct = ColString ∨ ct = ColText ∨ ct = ColOtro →
     definir_tipo_de_valor value ct = Ok (VStr s)) ∧
  (∀ s z, value = Some s → ct = ColInteger ∨ ct = ColBigInteger →
     py_int s = Some z → definir_tipo_de_valor value ct = Ok (VInt z)) ∧
  (∀ s f, value = Some s → ct = ColFloat → py_float s = Some f →
     definir_tipo_de_valor value ct = Ok (VFloat f)) ∧
  (∀ s, value = Some s → malformado ct s →
     definir_tipo_de_valor value ct = Raise ValueError) ∧
  (∀ e, definir_tipo_de_valor value ct = Raise e →
     e = ValueError ∧ ∃ s, value = Some s ∧ malformado ct s) ∧
  (definir_tipo_de_valor value ct = Ok VNone → value = None).
Proof.
  split_and!.
  - by intros ->.
  - intros s -> [-> | [-> | ->]]; reflexivity.
  - intros s z -> [-> | ->] Hz; simpl; by rewrite Hz.
  - intros s f -> -> Hf. simpl. by rewrite Hf.
  - intros s -> Hmal. destruct ct; simpl in *; try done; by rewrite Hmal.
  - intros e. destruct value as [s |]; [| done].
    destruct ct; simpl; try done.
    + destruct (py_int s) eqn:Hp; [done |]. intros [= <-]. eauto.
    + destruct (py_int s) eqn:Hp; [done |]. intros [= <-]. eauto.
    + destruct (py_float s) eqn:Hp; [done |]. intros [= <-]. eauto.
  - destruct value as [s |]; [| done].
    destruct ct; simpl; try done.
    + by destruct (py_int s).
    + by destruct (py_int s).
    + by destruct (py_float s).
Qed.

(** ** The source tag of a column *)

Lemma redirigida_dec (col_name : string) :
  redirigida col_name ∨ ¬ redirigida col_name.
Proof.
  unfold redirigida.
  destruct (decide (col_name = pk_name)) as [Hpk | Hpk]; [| right; tauto].
  destruct pk_from as [desde |]; [| right; intros (_ & d & ? & _); done].
  destruct (decide (desde = "")) as [-> | Hne].
  - right. intros (_ & d & [= <-] & Hd). done.
  - left. eauto.
Qed.

(** C5, as the code has it: the redirect of the primary key, when it
    applies, gives the tag whatever the field map holds; otherwise the field
    map's entry for the column; otherwise the name of the column. *)
Theorem xml_tag_precedence (col_name : string) :
  (∀ desde, col_name = pk_name → pk_from = Some desde → desde ≠ "" →
     xml_tag_de col_name = desde) ∧
  (∀ t, ¬ redirigida col_name → field_map' !! col_name = Some t →
     xml_tag_de col_name = t) ∧
  (¬ redirigida col_name → field_map' !! col_name = None →
     xml_tag_de col_name = col_name).
Proof.
  assert (Hno : ¬ redirigida col_name →
            xml_tag_de col_name = default col_name (field_map' !! col_name)).
  { intros Hno. unfold xml_tag_de. cbv zeta.
    destruct pk_from as [desde |] eqn:Hpf; [| done].
    destruct (String.eqb_spec col_name pk_name) as [Hpk | Hpk]; [| done].
    simpl. destruct (str_truthy desde) eqn:Htr; [| done].
    exfalso. apply Hno. split; [done |]. exists desde.
    split; [done | by apply str_truthy_true]. }
  split_and!.
  - intros desde Hpk Hpf Hne. unfold xml_tag_de. rewrite Hpf.
    apply String.eqb_eq in Hpk. rewrite Hpk.
    apply str_truthy_true in Hne. by rewrite Hne.
  - intros t Hnr Hfm. rewrite (Hno Hnr), Hfm. done.
  - intros Hnr Hfm. rewrite (Hno Hnr), Hfm. done.
Qed.

(** ** One iteration *)

Ltac abrir_cuerpo :=
  unfold iteracion, cuerpo, manejar, ligar, levantar, lanzar, en_sesion,
    print, mas_insertado, mas_duplicado, mas_error, session_get,
    session_commit, session_add, session_rollback; simpl.

Lemma sesion_limpia_eta (ses : Sesion) :
  pendientes ses = [] → sesion_nueva (filas ses) = ses.
Proof. destruct ses as [t p]. simpl. intros ->. reflexivity. Qed.

Lemma flush_uno (t : tabla) (r : fila) :
  flush model t [r] =
    match t !! data_get r pk_name with
    | Some _ => Raise IntegrityError
    | None =>
        match restriccion model t r with
        | Some e => Raise e
        | None => Ok (<[data_get r pk_name := r]> t)
        end
    end.
Proof.
  simpl. fold pk_name. destruct (t !! data_get r pk_name); [done |].
  by destruct (restriccion model t r).
Qed.

(** With a clean session, an iteration does what the outcome of its item
    on the current table says. *)
Lemma iteracion_clase (st : Estado) (item : Element) :
  limpia st →
  iteracion st item = aplicar (clasificar (filas (sesion st)) item) st.
Proof.
  unfold limpia. intros Hlimpia.
  unfold clasificar. abrir_cuerpo.
  destruct (construir_data item) as [data | e]; simpl; [| done].
  destruct (decide (data_get data pk_name = VNone)) as [Hpk | Hpk].
  { rewrite Hpk. done. }
  destruct (data_get data pk_name) as [| s | z | f | b] eqn:Hval; [done | ..];
    (destruct (primary_key model) as [| c [| c' cs']]; simpl; [done | | done];
     destruct (filas (sesion st) !! _) as [r |] eqn:Hget; simpl; [done |];
     rewrite Hlimpia; simpl app; rewrite flush_uno, Hval, Hget;
     destruct (restriccion model (filas (sesion st)) data) as [e |]; done).
Qed.

Lemma aplicar_limpia (c : clase) (st : Estado) :
  limpia st → limpia (aplicar c st).
Proof. unfold limpia. by destruct c. Qed.

Lemma iteracion_limpia (st : Estado) (item : Element) :
  limpia st → limpia (iteracion st item).
Proof. intros H. rewrite iteracion_clase by done. by apply aplicar_limpia. Qed.

Lemma bucle_limpia (items : list Element) (st : Estado) :
  limpia st → limpia (bucle items st).
Proof.
  revert st. induction items as [| item items IH]; intros st H; [done |].
  simpl. apply IH. by apply iteracion_limpia.
Qed.

Lemma estado_inicial_limpia (t : tabla) (ya : list mensaje) :
  limpia (estado_inicial t ya).
Proof. reflexivity. Qed.

Lemma filas_aplicar (c : clase) (st : Estado) :
  filas (sesion (aplicar c st)) = tabla_tras c (filas (sesion st)).
Proof. by destruct c. Qed.

Lemma cuantos_nil (p : clase → bool) : cuantos p [] = 0.
Proof. reflexivity. Qed.

Lemma cuantos_cons (p : clase → bool) (c : clase) (cs : list clase) :
  cuantos p (c :: cs) = (if p c then 1 else 0) + cuantos p cs.
Proof.
  unfold cuantos. simpl. destruct (p c); simpl List.length; lia.
Qed.

Lemma cuantos_no_negativo (p : clase → bool) (cs : list clase) :
  (0 ≤ cuantos p cs)%Z.
Proof. unfold cuantos. lia. Qed.

Lemma cuantos_app (p : clase → bool) (cs1 cs2 : list clase) :
  cuantos p (cs1 ++ cs2) = cuantos p cs1 + cuantos p cs2.
Proof.
  unfold cuantos. rewrite List.filter_app, List.length_app. lia.
Qed.

(** The three kinds split the outcomes. *)
Lemma cuantos_total (cs : list clase) :
  cuantos es_insertado cs + cuantos es_duplicado cs + cuantos es_error cs =
  Z.of_nat (List.length cs).
Proof.
  induction cs as [| c cs IH]; [done |].
  rewrite !cuantos_cons. simpl List.length. rewrite Nat2Z.inj_succ.
  destruct c; cbn [es_error es_insertado es_duplicado negb andb]; lia.
Qed.

Lemma clases_length (t : tabla) (items : list Element) :
  List.length (clases t items) = List.length items.
Proof.
  revert t. induction items as [| item items IH]; intros t; [done |].
  simpl. by rewrite IH.
Qed.

Lemma contadores_aplicar (c : clase) (st : Estado) :
  insertados (aplicar c st) = insertados st + (if es_insertado c then 1 else 0) ∧
  duplicados (aplicar c st) = duplicados st + (if es_duplicado c then 1 else 0) ∧
  errores (aplicar c st) = errores st + (if es_error c then 1 else 0).
Proof. destruct c; simpl; lia. Qed.

(** ** The loop *)

(** With a clean session, the loop leaves the table of the outcomes and has
    counted each kind of outcome. *)
Lemma bucle_clases (items : list Element) (st : Estado) :
  limpia st →
  let cs := clases (filas (sesion st)) items in
  filas (sesion (bucle items st)) = tabla_final (filas (sesion st)) items ∧
  insertados (bucle items st) = insertados st + cuantos es_insertado cs ∧
  duplicados (bucle items st) = duplicados st + cuantos es_duplicado cs ∧
  errores (bucle items st) = errores st + cuantos es_error cs.
Proof.
  revert st. induction items as [| item items IH]; intros st Hl; simpl.
  - rewrite !cuantos_nil. split_and!; try done; lia.
  - rewrite !cuantos_cons.
    pose proof (iteracion_clase st item Hl) as Hit.
    pose proof (IH (iteracion st item) (iteracion_limpia st item Hl)) as IH'.
    simpl in IH'. rewrite Hit in IH'. rewrite Hit.
    rewrite filas_aplicar in IH'.
    destruct IH' as (Hf & Hi & Hd & He).
    destruct (contadores_aplicar (clasificar (filas (sesion st)) item) st)
      as (Ci & Cd & Ce).
    split_and!; [done | lia | lia | lia].
Qed.

Lemma bucle_app (antes despues : list Element) (st : Estado) :
  bucle (antes ++ despues) st = bucle despues (bucle antes st).
Proof. apply fold_left_app. Qed.

Lemma iteracion_crece (st : Estado) (item : Element) :
  limpia st →
  (insertados st ≤ insertados (iteracion st item))%Z ∧
  (duplicados st ≤ duplicados (iteracion st item))%Z ∧
  (errores st ≤ errores (iteracion st item))%Z.
Proof.
  intros Hl. rewrite iteracion_clase by done.
  destruct (contadores_aplicar (clasificar (filas (sesion st)) item) st)
    as (Ci & Cd & Ce).
  destruct (es_insertado _), (es_duplicado _), (es_error _); lia.
Qed.

(** C9: at the end of the loop the three counters add up to the number of
    elements with the item tag under the root, none is negative, and no
    iteration lowers a counter: after [n + 1] iterations each counter is at
    least what it was after [n]. *)
Theorem contadores_invariante (t : tabla) (ya : list mensaje) (root : Element) :
  let items := findall item_tag root in
  let tras n := bucle (take n items) (estado_inicial t ya) in
  let st := bucle items (estado_inicial t ya) in
  insertados st + duplicados st + errores st = Z.of_nat (List.length items) ∧
  (0 ≤ insertados st)%Z ∧ (0 ≤ duplicados st)%Z ∧ (0 ≤ errores st)%Z ∧
  ∀ n : nat,
    (insertados (tras n) ≤ insertados (tras (S n)))%Z ∧
    (duplicados (tras n) ≤ duplicados (tras (S n)))%Z ∧
    (errores (tras n) ≤ errores (tras (S n)))%Z.
Proof.
  intros items tras st.
  destruct (bucle_clases items (estado_inicial t ya)
              (estado_inicial_limpia t ya)) as (_ & Hi & Hd & He).
  fold st in Hi, Hd, He. simpl in Hi, Hd, He.
  pose proof (cuantos_total (clases t items)) as Htot.
  rewrite clases_length in Htot.
  pose proof (cuantos_no_negativo es_insertado (clases t items)).
  pose proof (cuantos_no_negativo es_duplicado (clases t items)).
  pose proof (cuantos_no_negativo es_error (clases t items)).
  split_and!; try lia.
  intros n. unfold tras.
  destruct (items !! n) as [item |] eqn:Hn.
  - rewrite (take_S_r _ _ _ Hn), bucle_app. simpl.
    apply iteracion_crece, bucle_limpia, estado_inicial_limpia.
  - apply lookup_ge_None in Hn.
    rewrite !take_ge by lia. lia.
Qed.

(** ** Failures of one record *)

(** When the body of the [try] raises, it has changed neither the rows nor
    the counters nor the output. *)
Lemma cuerpo_raise (st st' : Estado) (item : Element) (e : excepcion) :
  cuerpo item st = (Raise e, st') →
  filas (sesion st') = filas (sesion st) ∧
  insertados st' = insertados st ∧ duplicados st' = duplicados st ∧
  errores st' = errores st ∧ salida st' = salida st.
Proof.
  abrir_cuerpo.
  destruct (construir_data item) as [data | e0]; simpl;
    [| intros [= <- <-]; done].
  destruct (data_get data pk_name) as [| s | z | f | b];
    [intros [= <- <-]; done | ..];
    (destruct (primary_key model) as [| c [| c' cs']]; simpl;
       [intros [= <- <-]; done | | intros [= <- <-]; done];
     destruct (filas (sesion st) !! _) as [r |]; simpl; [done |];
     destruct (flush model _ _) as [t' | e1]; simpl; [done |];
     intros [= <- <-]; done).
Qed.

Lemma iteracion_raise (st : Estado) (item : Element) (e : excepcion) :
  fst (cuerpo item st) = Raise e →
  iteracion st item = con_error e st.
Proof.
  intros Hr. unfold iteracion.
  destruct (cuerpo item st) as [r st'] eqn:Hc. simpl in Hr. subst r.
  destruct (cuerpo_raise _ _ _ _ Hc) as (Hf & Hi & Hd & He & Hs).
  unfold manejar, ligar, en_sesion, print, mas_error, session_rollback,
    con_error, sesion_nueva. simpl.
  by rewrite Hf, Hi, Hd, He, Hs.
Qed.

(** The dict of a record holds, for each column, the value computed for
    it. *)
Lemma llenar_data_conserva (cs : list (string * col_type)) (item : Element)
    (d data : fila) (c : string) :
  ¬ In c (map fst cs) →
  llenar_data cs item d = Ok data →
  data !! c = d !! c.
Proof.
  revert d. induction cs as [| [c' ct'] cs IH]; intros d Hnin Hll.
  - by injection Hll as <-.
  - simpl in Hll, Hnin. destruct (valor_de item c' ct') as [v |]; [| done].
    rewrite (IH _ ltac:(tauto) Hll). apply lookup_insert_ne. tauto.
Qed.

Lemma llenar_data_get (cs : list (string * col_type)) (item : Element)
    (d data : fila) (c : string) (ct : col_type) :
  List.NoDup (map fst cs) →
  In (c, ct) cs →
  llenar_data cs item d = Ok data →
  ∃ v, valor_de item c ct = Ok v ∧ data !! c = Some v.
Proof.
  revert d. induction cs as [| [c' ct'] cs IH]; intros d Hnd Hin Hll.
  - destruct Hin.
  - simpl in Hll, Hnd. apply List.NoDup_cons_iff in Hnd as [Hfresh Hnd].
    destruct (valor_de item c' ct') as [v |] eqn:Hv; [| done].
    destruct Hin as [[= -> ->] | Hin]; [| by eapply IH].
    exists v. split; [done |].
    rewrite (llenar_data_conserva _ _ _ _ _ Hfresh Hll).
    apply lookup_insert_eq.
Qed.

(** A primary-key column without transform whose sub-element is absent or
    has no text resolves to [None]. *)
Lemma pk_sin_texto (item : Element) (data : fila) (ct : col_type) :
  List.NoDup (map fst cols) →
  In (pk_name, ct) cols →
  transforms' !! pk_name = None →
  get_text (find (xml_tag_de pk_name) item) = None →
  construir_data item = Ok data →
  data_get data pk_name = VNone.
Proof.
  intros Hnd Hin Htr Hraw Hd.
  destruct (llenar_data_get _ _ _ _ _ _ Hnd Hin Hd) as (v & Hv & Hget).
  unfold valor_de in Hv. cbv zeta in Hv. rewrite Htr, Hraw in Hv.
  injection Hv as <-. unfold data_get. by rewrite Hget.
Qed.

(** C2: a record whose primary key resolves to [None] raises [ValueError];
    the handler rolls back, the rows are as before, the error counter goes
    up by one and the other two stay, and the loop goes on with the next
    record. *)
Theorem pk_nula_es_error (st : Estado) (item : Element) (data : fila) :
  construir_data item = Ok data →
  data_get data pk_name = VNone →
  let st' := iteracion st item in
  fst (cuerpo item st) = Raise ValueError ∧
  filas (sesion st') = filas (sesion st) ∧
  pendientes (sesion st') = [] ∧
  insertados st' = insertados st ∧
  duplicados st' = duplicados st ∧
  errores st' = errores st + 1 ∧
  salida st' = salida st ++ [MsgErrorValor] ∧
  ∀ resto, bucle (item :: resto) st = bucle resto st'.
Proof.
  intros Hdata Hpk st'.
  assert (Hr : fst (cuerpo item st) = Raise ValueError).
  { unfold cuerpo, ligar, levantar, lanzar. rewrite Hdata. simpl.
    by rewrite Hpk. }
  assert (Hst : st' = con_error ValueError st)
    by apply (iteracion_raise _ _ _ Hr).
  split_and!; try (rewrite Hst; reflexivity); done.
Qed.

Lemma llenar_data_falla (cs : list (string * col_type)) (item : Element)
    (data : fila) (c : string) (ct : col_type) (e0 : excepcion) :
  In (c, ct) cs →
  valor_de item c ct = Raise e0 →
  ∃ e, llenar_data cs item data = Raise e.
Proof.
  revert data. induction cs as [| [c' ct'] cs IH]; intros data Hin Hv.
  - destruct Hin.
  - simpl. destruct Hin as [[= -> ->] | Hin].
    + rewrite Hv. eauto.
    + destruct (valor_de item c' ct') as [v | e]; eauto.
Qed.

Lemma valor_de_malformado (item : Element) (c s : string) (ct : col_type) :
  transforms' !! c = None →
  get_text (find (xml_tag_de c) item) = Some s →
  malformado ct s →
  valor_de item c ct = Raise ValueError.
Proof.
  intros Htr Hraw Hmal. unfold valor_de. cbv zeta. rewrite Htr, Hraw.
  destruct ct; simpl in *; try done; by rewrite Hmal.
Qed.

Lemma cuerpo_error_datos (st : Estado) (item : Element) (e : excepcion) :
  construir_data item = Raise e → fst (cuerpo item st) = Raise e.
Proof.
  intros Hd. unfold cuerpo, ligar, levantar. by rewrite Hd.
Qed.

(** C6: whatever the body of the [try] raises for a record, the handler
    leaves the rows as they were and the session rolled back, adds one to
    the error counter only, and the loop goes on with the next record.
    With a text that [int] or [float] rejects in a column of that type, the
    record raises, the rows committed before it stay, and the run ends with
    the rows and the insert and duplicate counts it has without that
    record, and one more error. *)
Theorem fallo_aislado :
  (∀ (st : Estado) (item : Element) (e : excepcion),
     fst (cuerpo item st) = Raise e →
     let st' := iteracion st item in
     filas (sesion st') = filas (sesion st) ∧
     pendientes (sesion st') = [] ∧
     errores st' = errores st + 1 ∧
     insertados st' = insertados st ∧
     duplicados st' = duplicados st ∧
     ∀ resto, bucle (item :: resto) st = bucle resto st') ∧
  (∀ (t : tabla) (ya : list mensaje) (antes despues : list Element)
     (item : Element) (c s : string) (ct : col_type),
     In (c, ct) cols →
     transforms' !! c = None →
     get_text (find (xml_tag_de c) item) = Some s →
     malformado ct s →
     let st0 := estado_inicial t ya in
     let st1 := bucle antes st0 in
     let con := bucle (antes ++ item :: despues) st0 in
     let sin := bucle (antes ++ despues) st0 in
     (∃ e, fst (cuerpo item st1) = Raise e) ∧
     filas (sesion (iteracion st1 item)) = filas (sesion st1) ∧
     filas (sesion con) = filas (sesion sin) ∧
     insertados con = insertados sin ∧
     duplicados con = duplicados sin ∧
     errores con = errores sin + 1).
Proof.
  split.
  - intros st item e Hr st'.
    assert (Hst : st' = con_error e st) by apply (iteracion_raise _ _ _ Hr).
    split_and!; try (rewrite Hst; reflexivity); done.
  - intros t ya antes despues item c s ct Hin Htr Hraw Hmal st0 st1 con sin.
    pose proof (valor_de_malformado item c s ct Htr Hraw Hmal) as Hv.
    destruct (llenar_data_falla cols item ∅ c ct ValueError Hin Hv)
      as [e Hd].
    pose proof (cuerpo_error_datos st1 item e Hd) as Hr.
    pose proof (iteracion_raise _ _ _ Hr) as Hit.
    assert (Hl1 : limpia st1)
      by apply bucle_limpia, estado_inicial_limpia.
    assert (Hl2 : limpia (con_error e st1)) by reflexivity.
    destruct (bucle_clases despues st1 Hl1) as (Hf1 & Hi1 & Hd1 & He1).
    destruct (bucle_clases despues (con_error e st1) Hl2)
      as (Hf2 & Hi2 & Hd2 & He2).
    simpl in Hf2, Hi2, Hd2, He2.
    unfold con, sin. rewrite !bucle_app. fold st1. simpl. rewrite Hit.
    split_and!; [eauto | done | congruence | lia | lia | lia].
Qed.

(** ** A run *)

(** What a run on a document leaves and prints. *)
Lemma importar_datos_documento (fs : string → archivo) (t : tabla)
    (nombre_archivo : string) (root : Element) :
  fs (xml_file_path nombre_archivo) = Documento root →
  let st :=
    bucle (findall item_tag root)
      (estado_inicial t
         [MsgImportando (model_name model) (xml_file_path nombre_archivo)]) in
  importar_datos fs t nombre_archivo =
    (filas (sesion st),
     salida st ++
       [MsgResumen (model_name model) (insertados st) (duplicados st)
          (errores st)]).
Proof. intros Hfs. unfold importar_datos. by rewrite Hfs. Qed.

(** C7, as the code has it: when the file is not there the run leaves the
    rows as they are and prints the line that the file was not found and
    nothing else: no summary, so no counts. *)
Theorem archivo_ausente (fs : string → archivo) (t : tabla)
    (nombre_archivo : string) :
  fs (xml_file_path nombre_archivo) = NoExiste →
  importar_datos fs t nombre_archivo =
    (t, [MsgNoEncontrado (xml_file_path nombre_archivo)]) ∧
  ∀ n i d e,
    ¬ In (MsgResumen n i d e) (snd (importar_datos fs t nombre_archivo)).
Proof.
  intros Hfs. unfold importar_datos. rewrite Hfs. split; [done |].
  intros n i d e [H | []]. discriminate.
Qed.

(** ** Rows are only added *)

Lemma clasificar_insertado (t : tabla) (item : Element) (pk : valor)
    (data : fila) :
  clasificar t item = CInsertado pk data →
  construir_data item = Ok data ∧ pk = data_get data pk_name ∧
  pk ≠ VNone ∧ t !! pk = None ∧ ∃ c, primary_key model = [c].
Proof.
  unfold clasificar.
  destruct (construir_data item) as [data' | e]; [| done]. cbv zeta.
  destruct (decide (data_get data' pk_name = VNone)) as [Hn | Hn]; [done |].
  destruct (primary_key model) as [| c [| c' cs']]; [done | | done].
  destruct (t !! data_get data' pk_name) eqn:Hget; [done |].
  destruct (restriccion model t data'); [done |].
  intros [= <- <-]. eauto 10.
Qed.

Lemma clasificar_duplicado (t : tabla) (item : Element) (data r : fila)
    (c : string) :
  construir_data item = Ok data →
  data_get data pk_name ≠ VNone →
  primary_key model = [c] →
  t !! data_get data pk_name = Some r →
  clasificar t item = CDuplicado (data_get data pk_name).
Proof.
  intros Hd Hn Hpk Hget. unfold clasificar. rewrite Hd. cbv zeta.
  destruct (decide (data_get data pk_name = VNone)); [done |].
  by rewrite Hpk, Hget.
Qed.

(** An item leaves the rows that are in the table as they are. *)
Lemma tabla_tras_conserva (t : tabla) (item : Element) (k : valor) (r : fila) :
  t !! k = Some r → tabla_tras (clasificar t item) t !! k = Some r.
Proof.
  intros Hk. destruct (clasificar t item) as [| | | | | pk data] eqn:Hc;
    try done.
  apply clasificar_insertado in Hc as (_ & _ & _ & Hnone & _). simpl.
  rewrite lookup_insert_ne; [done |]. intros ->. congruence.
Qed.

Lemma tabla_final_conserva (items : list Element) (t : tabla) (k : valor)
    (r : fila) :
  t !! k = Some r → tabla_final t items !! k = Some r.
Proof.
  revert t. induction items as [| item items IH]; intros t Hk; [done |].
  apply IH. by apply tabla_tras_conserva.
Qed.

Lemma tabla_final_cons (t : tabla) (item : Element) (items : list Element) :
  tabla_final t (item :: items) =
  tabla_final (tabla_tras (clasificar t item) t) items.
Proof. reflexivity. Qed.

Lemma es_insertado_true (c : clase) :
  es_insertado c = true → ∃ pk data, c = CInsertado pk data.
Proof. destruct c; try done. eauto. Qed.

(** C10: when a record of the file has been inserted and a later record of
    the file resolves to the same primary key, the later record is counted
    as a duplicate, not as an error or an insert, it leaves the rows as they
    are, and at the end of the run the row under that key is the one of the
    first record. *)
Theorem duplicado_en_archivo (t : tabla) (ya : list mensaje)
    (antes entre despues : list Element) (a b : Element) (da db : fila)
    (k : valor) :
  let st1 := bucle antes (estado_inicial t ya) in
  let st2 := bucle entre (iteracion st1 a) in
  let st3 := iteracion st2 b in
  let fin := bucle (antes ++ a :: entre ++ b :: despues) (estado_inicial t ya) in
  construir_data a = Ok da →
  construir_data b = Ok db →
  data_get da pk_name = k →
  data_get db pk_name = k →
  k ≠ VNone →
  insertados (iteracion st1 a) = insertados st1 + 1 →
  duplicados st3 = duplicados st2 + 1 ∧
  errores st3 = errores st2 ∧
  insertados st3 = insertados st2 ∧
  filas (sesion st3) = filas (sesion st2) ∧
  filas (sesion fin) !! k = Some da.
Proof.
  intros st1 st2 st3 fin Hda Hdb Hka Hkb Hk Hins.
  assert (Hl1 : limpia st1) by apply bucle_limpia, estado_inicial_limpia.
  assert (Hla : limpia (iteracion st1 a)) by by apply iteracion_limpia.
  assert (Hl2 : limpia st2) by by apply bucle_limpia.
  (* the first record went in *)
  pose proof (iteracion_clase st1 a Hl1) as Hita.
  destruct (contadores_aplicar (clasificar (filas (sesion st1)) a) st1)
    as (Ci & _ & _).
  rewrite <- Hita, Hins in Ci.
  destruct (es_insertado (clasificar (filas (sesion st1)) a)) eqn:Hes;
    [| lia].
  apply es_insertado_true in Hes as (pk & data & Hca).
  pose proof Hca as Hca'.
  apply clasificar_insertado in Hca' as (Hd & Hpk & _ & _ & c & Hcol).
  rewrite Hda in Hd. injection Hd as <-. rewrite Hka in Hpk. subst pk.
  assert (Hfa : filas (sesion (iteracion st1 a)) !! k = Some da).
  { rewrite Hita, filas_aplicar, Hca. simpl. apply lookup_insert_eq. }
  (* it is still there when the second record comes *)
  destruct (bucle_clases entre (iteracion st1 a) Hla) as (Hf2 & _).
  fold st2 in Hf2.
  assert (Hf2k : filas (sesion st2) !! k = Some da).
  { rewrite Hf2. by apply tabla_final_conserva. }
  assert (Hcb : clasificar (filas (sesion st2)) b = CDuplicado k).
  { rewrite <- Hkb. apply (clasificar_duplicado _ _ _ da c); try done.
    - by rewrite Hkb.
    - by rewrite Hkb. }
  assert (Hst3 : st3 = aplicar (CDuplicado k) st2).
  { unfold st3. rewrite iteracion_clase by done. by rewrite Hcb. }
  assert (Hl3 : limpia st3) by by apply iteracion_limpia.
  split_and!; try (rewrite Hst3; reflexivity).
  destruct (bucle_clases despues st3 Hl3) as (Hf3 & _).
  unfold fin. rewrite bucle_app. fold st1. simpl. rewrite bucle_app.
  fold st2. simpl. fold st3. rewrite Hf3.
  apply tabla_final_conserva. by rewrite Hst3.
Qed.

(** ** Importing a file again *)

Lemma tabla_tras_reclasificar (c : clase) (t : tabla) :
  tabla_tras (reclasificar c) t = t.
Proof. by destruct c. Qed.

(** On a table that holds every key the first run left, each record that
    the commit did not refuse has the outcome of the first run, with
    "duplicate" for "inserted". *)
Lemma clasificar_otra_vez (t t' : tabla) (item : Element) :
  es_rechazo (clasificar t item) = false →
  (∀ k, is_Some (tabla_tras (clasificar t item) t !! k) → is_Some (t' !! k)) →
  clasificar t' item = reclasificar (clasificar t item).
Proof.
  unfold clasificar.
  destruct (construir_data item) as [data | e]; [| done]. cbv zeta.
  destruct (decide (data_get data pk_name = VNone)) as [Hn | Hn]; [done |].
  destruct (primary_key model) as [| c [| c' cs']]; [done | | done].
  destruct (t !! data_get data pk_name) as [r |] eqn:Hget.
  - intros _ Hsub. simpl in Hsub.
    destruct (Hsub (data_get data pk_name)) as [r' Hr']; [by rewrite Hget |].
    by rewrite Hr'.
  - destruct (restriccion model t data) as [e |]; [done |].
    intros _ Hsub. simpl in Hsub.
    destruct (Hsub (data_get data pk_name)) as [r' Hr'];
      [by rewrite lookup_insert_eq |].
    by rewrite Hr'.
Qed.

Lemma clases_otra_vez (items : list Element) (t t' : tabla) :
  Forall (λ c, es_rechazo c = false) (clases t items) →
  (∀ k, is_Some (tabla_final t items !! k) → is_Some (t' !! k)) →
  clases t' items = map reclasificar (clases t items) ∧
  tabla_final t' items = t'.
Proof.
  revert t. induction items as [| item items IH]; intros t Hno Hsub;
    [done |].
  simpl in Hno. apply Forall_cons in Hno as [Hno1 Hno].
  rewrite tabla_final_cons in Hsub.
  assert (Hc : clasificar t' item = reclasificar (clasificar t item)).
  { apply clasificar_otra_vez; [done |]. intros k [r Hr]. apply Hsub.
    exists r. by apply tabla_final_conserva. }
  cbn [clases map]. rewrite tabla_final_cons, Hc, tabla_tras_reclasificar.
  destruct (IH _ Hno Hsub) as [IH1 IH2]. by rewrite IH1, IH2.
Qed.

Lemma cuantos_reclasificar (cs : list clase) :
  cuantos es_insertado (map reclasificar cs) = 0 ∧
  cuantos es_duplicado (map reclasificar cs) =
    cuantos es_insertado cs + cuantos es_duplicado cs ∧
  cuantos es_error (map reclasificar cs) = cuantos es_error cs.
Proof.
  induction cs as [| c cs (IHi & IHd & IHe)]; [done |].
  simpl map. rewrite !cuantos_cons, IHi, IHd, IHe.
  destruct c; cbn [reclasificar es_error es_insertado es_duplicado negb andb];
    lia.
Qed.

(** The outcome "refused" is a commit that raised: the data resolved, the
    key was not in the table, and [session.commit] raised after
    [session.add]. *)
Lemma rechazo_es_commit (st : Estado) (item : Element) (e : excepcion) :
  limpia st →
  clasificar (filas (sesion st)) item = CRechazado e ↔
  ∃ data,
    construir_data item = Ok data ∧
    data_get data pk_name ≠ VNone ∧
    session_get model (data_get data pk_name) (sesion st) = Ok None ∧
    fst (session_commit model (session_add data (sesion st))) = Raise e.
Proof.
  unfold limpia. intros Hl.
  assert (Hcommit : ∀ data,
            fst (session_commit model (session_add data (sesion st))) =
            match flush model (filas (sesion st)) [data] with
            | Ok _ => Ok tt
            | Raise e' => Raise e'
            end).
  { intros data. unfold session_commit, session_add.
    cbn [filas pendientes]. rewrite Hl. cbn [app].
    by destruct (flush model (filas (sesion st)) [data]). }
  unfold clasificar, session_get.
  destruct (construir_data item) as [data | e0].
  - cbv zeta.
    destruct (decide (data_get data pk_name = VNone)) as [Hn | Hn].
    { split; [done |]. intros (d & [= <-] & Hd & _). done. }
    destruct (primary_key model) as [| c [| c' cs']].
    { split; [done |]. by intros (d & _ & _ & Hg & _). }
    2: { split; [done |]. by intros (d & _ & _ & Hg & _). }
    destruct (filas (sesion st) !! data_get data pk_name) as [r |] eqn:Hget.
    { split; [done |]. intros (d & [= <-] & _ & Hg & _).
      rewrite Hget in Hg. done. }
    split.
    + intros Hc. exists data. split_and!; try done; [by rewrite Hget |].
      rewrite Hcommit, flush_uno, Hget.
      destruct (restriccion model (filas (sesion st)) data); [| done].
      by injection Hc as ->.
    + intros (d & [= <-] & _ & _ & Hc).
      rewrite Hcommit, flush_uno, Hget in Hc.
      destruct (restriccion model (filas (sesion st)) data); [| done].
      by injection Hc as ->.
  - split; [done |]. by intros (d & Hd & _).
Qed.

(** A table that accepts every row refuses no record. *)
Lemma sin_restriccion_sin_rechazo (t : tabla) (items : list Element) :
  (∀ t' r, restriccion model t' r = None) →
  Forall (λ c, es_rechazo c = false) (clases t items).
Proof.
  intros Hlibre. revert t.
  induction items as [| item items IH]; intros t; [constructor |].
  simpl. constructor; [| apply IH].
  unfold clasificar. destruct (construir_data item) as [data |]; [| done].
  cbv zeta. destruct (decide _); [done |].
  destruct (primary_key model) as [| c [| c' cs']]; try done.
  destruct (t !! _); [done |]. by rewrite Hlibre.
Qed.

(** C1, as the code has it: when the commit refused no record of the first
    run, importing the same records again on the rows the first run left
    inserts nothing and leaves the rows as they are; the duplicates of the
    second run are the inserts of the first plus the duplicates of the
    first, and so equal the inserts of the first when the first run met no
    duplicate; the errors are those of the first run. *)
Theorem reimportar (t0 : tabla) (ya1 ya2 : list mensaje)
    (items : list Element) :
  let st1 := bucle items (estado_inicial t0 ya1) in
  let st2 := bucle items (estado_inicial (filas (sesion st1)) ya2) in
  Forall (λ c, es_rechazo c = false) (clases t0 items) →
  insertados st2 = 0 ∧
  duplicados st2 = insertados st1 + duplicados st1 ∧
  errores st2 = errores st1 ∧
  filas (sesion st2) = filas (sesion st1) ∧
  (duplicados st1 = 0 → duplicados st2 = insertados st1).
Proof.
  intros st1 st2 Hno.
  destruct (bucle_clases items (estado_inicial t0 ya1)
              (estado_inicial_limpia _ _)) as (Hf1 & Hi1 & Hd1 & He1).
  fold st1 in Hf1, Hi1, Hd1, He1. simpl in Hf1, Hi1, Hd1, He1.
  destruct (bucle_clases items (estado_inicial (filas (sesion st1)) ya2)
              (estado_inicial_limpia _ _)) as (Hf2 & Hi2 & Hd2 & He2).
  fold st2 in Hf2, Hi2, Hd2, He2. simpl in Hf2, Hi2, Hd2, He2.
  destruct (clases_otra_vez items t0 (filas (sesion st1)) Hno) as [Hcs Htf].
  { intros k. by rewrite Hf1. }
  rewrite Hcs in Hi2, Hd2, He2. rewrite Htf in Hf2.
  destruct (cuantos_reclasificar (clases t0 items)) as (Ri & Rd & Re).
  split_and!; [lia | lia | lia | done | lia].
Qed.

(** ** The table after a run *)

(** Every row of the table after a run was there before, or is the dict of
    a record of the run, under the key that record resolves to. *)
Lemma tabla_final_origen (items : list Element) (t : tabla) (k : valor)
    (r : fila) :
  tabla_final t items !! k = Some r →
  t !! k = Some r ∨
  ∃ item, In item items ∧ construir_data item = Ok r ∧
          data_get r pk_name = k ∧ k ≠ VNone.
Proof.
  revert t. induction items as [| item items IH]; intros t Hk; [by left |].
  rewrite tabla_final_cons in Hk.
  destruct (IH _ Hk) as [Hk' | (item' & Hin & Hrest)].
  - destruct (clasificar t item) as [| | | | | pk data] eqn:Hc;
      try (by left).
    apply clasificar_insertado in Hc as (Hd & Hpk & Hn & _ & _).
    simpl in Hk'. destruct (decide (pk = k)) as [-> | Hne].
    + rewrite lookup_insert_eq in Hk'. injection Hk' as ->.
      right. exists item. split_and!; try done. by left.
    + rewrite lookup_insert_ne in Hk' by done. by left.
  - right. exists item'. split; [by right | done].
Qed.

(** The rows grow by one for each insert. *)
Lemma size_tabla_final (items : list Element) (t : tabla) :
  Z.of_nat (size (tabla_final t items)) =
  Z.of_nat (size t) + cuantos es_insertado (clases t items).
Proof.
  revert t. induction items as [| item items IH]; intros t.
  - rewrite cuantos_nil. simpl. lia.
  - rewrite tabla_final_cons, IH. cbn [clases]. rewrite cuantos_cons.
    destruct (clasificar t item) as [| | | | | pk data] eqn:Hc;
      cbn [tabla_tras es_insertado]; try lia.
    apply clasificar_insertado in Hc as (_ & _ & _ & Hnone & _).
    rewrite (map_size_insert_None _ _ _ Hnone). lia.
Qed.

Lemma clases_app (antes despues : list Element) (t : tabla) :
  clases t (antes ++ despues) =
  clases t antes ++ clases (tabla_final t antes) despues.
Proof.
  revert t. induction antes as [| item antes IH]; intros t; [done |].
  cbn [app clases]. by rewrite IH, tabla_final_cons.
Qed.

(** X1: a run never removes or rewrites a row: whatever is at the path of
    the file, every row the table had before the run is in it afterwards,
    unchanged, also when a record of the file carries the same key with
    other values. *)
Theorem importar_conserva_filas (fs : string → archivo) (t : tabla)
    (nombre_archivo : string) (k : valor) (r : fila) :
  t !! k = Some r →
  fst (importar_datos fs t nombre_archivo) !! k = Some r.
Proof.
  intros Hk. unfold importar_datos.
  destruct (fs (xml_file_path nombre_archivo)) as [| | | root];
    [done | done | done |].
  cbn [fst].
  destruct (bucle_clases (findall item_tag root)
              (estado_inicial t
                 [MsgImportando (model_name model)
                    (xml_file_path nombre_archivo)])
              (estado_inicial_limpia _ _)) as (Hf & _).
  rewrite Hf. by apply tabla_final_conserva.
Qed.

(** X2: every row of the table after a run either was in the table before,
    or is the dict built from a record with the item tag under the root of
    the document, stored under the value of its primary-key column, which is
    not [None]. *)
Theorem importar_origen_filas (fs : string → archivo) (t : tabla)
    (nombre_archivo : string) (k : valor) (r : fila) :
  fst (importar_datos fs t nombre_archivo) !! k = Some r →
  t !! k = Some r ∨
  ∃ root item,
    fs (xml_file_path nombre_archivo) = Documento root ∧
    In item (findall item_tag root) ∧
    construir_data item = Ok r ∧
    data_get r pk_name = k ∧ k ≠ VNone.
Proof.
  unfold importar_datos.
  destruct (fs (xml_file_path nombre_archivo)) as [| | | root] eqn:Hfs;
    [by left | by left | by left |].
  cbn [fst].
  destruct (bucle_clases (findall item_tag root)
              (estado_inicial t
                 [MsgImportando (model_name model)
                    (xml_file_path nombre_archivo)])
              (estado_inicial_limpia _ _)) as (Hf & _).
  rewrite Hf. intros Hk.
  destruct (tabla_final_origen _ _ _ _ Hk)
    as [Ht | (item & Hin & Hd & Hpk & Hn)]; [by left |].
  right. exists root, item. by split_and!.
Qed.

(** X3: the insert counter is the number of rows the loop added: the size
    of the table after the loop is its size before plus [insertados]. *)
Theorem insertados_es_crecimiento (t : tabla) (ya : list mensaje)
    (items : list Element) :
  let st := bucle items (estado_inicial t ya) in
  Z.of_nat (size (filas (sesion st))) = Z.of_nat (size t) + insertados st.
Proof.
  intros st.
  destruct (bucle_clases items (estado_inicial t ya)
              (estado_inicial_limpia _ _)) as (Hf & Hi & _).
  fold st in Hf, Hi. simpl in Hf, Hi.
  rewrite Hf, Hi, size_tabla_final. lia.
Qed.

(** X4: importing the records of a file in two runs, the first part and
    then the rest on the table the first run left, gives the rows of the
    single run, and counters that add up to those of the single run. *)
Theorem importar_por_partes (t : tabla) (ya ya' : list mensaje)
    (antes despues : list Element) :
  let todo := bucle (antes ++ despues) (estado_inicial t ya) in
  let st1 := bucle antes (estado_inicial t ya) in
  let st2 := bucle despues (estado_inicial (filas (sesion st1)) ya') in
  filas (sesion todo) = filas (sesion st2) ∧
  insertados todo = insertados st1 + insertados st2 ∧
  duplicados todo = duplicados st1 + duplicados st2 ∧
  errores todo = errores st1 + errores st2.
Proof.
  intros todo st1 st2.
  assert (Hl1 : limpia st1) by apply bucle_limpia, estado_inicial_limpia.
  destruct (bucle_clases despues st1 Hl1) as (Hf & Hi & Hd & He).
  destruct (bucle_clases despues (estado_inicial (filas (sesion st1)) ya')
              (estado_inicial_limpia _ _)) as (Hf2 & Hi2 & Hd2 & He2).
  fold st2 in Hf2, Hi2, Hd2, He2. simpl in Hf2, Hi2, Hd2, He2.
  unfold todo. rewrite bucle_app. fold st1.
  split_and!; [congruence | lia | lia | lia].
Qed.

(** X5: the loop leaves nothing pending: started in a fresh session, after
    any number of records, whatever each of them did, the session holds no
    object that is neither committed nor rolled back. *)
Theorem sesion_sin_pendientes (t : tabla) (ya : list mensaje)
    (items : list Element) :
  pendientes (sesion (bucle items (estado_inicial t ya))) = [].
Proof. apply bucle_limpia, estado_inicial_limpia. Qed.

(** ** What a run prints *)










Lemma findall_ninguno (root : Element) :
  Forall (λ c, tag c ≠ item_tag) (children root) →
  findall item_tag root = [].
Proof.
  unfold findall. induction 1 as [| c cs Hc _ IH]; [done |].
  simpl. destruct (String.eqb_spec (tag c) item_tag); [done | exact IH].
Qed.

(** X8: with a plain name as item tag, only the children of the root
    count as records: on a document whose root has no child with the item
    tag, wherever else that tag occurs in it, the run leaves the rows as
    they are and its summary has three zeros. *)
Theorem sin_registros (fs : string → archivo) (t : tabla)
    (nombre_archivo : string) (root : Element) :
  nombre_simple item_tag = true →
  fs (xml_file_path nombre_archivo) = Documento root →
  Forall (λ c, tag c ≠ item_tag) (children root) →
  importar_datos fs t nombre_archivo =
    (t, [MsgImportando (model_name model) (xml_file_path nombre_archivo);
         MsgResumen (model_name model) 0 0 0]).
Proof.
  intros _ Hfs Hno. unfold importar_datos.
  by rewrite Hfs, (findall_ninguno root Hno).
Qed.

(** ** A file of new records *)

Lemma cuantos_todos_insertados (cs : list clase) :
  Forall (λ c, es_insertado c = true) cs →
  cuantos es_insertado cs = Z.of_nat (List.length cs) ∧
  cuantos es_duplicado cs = 0 ∧ cuantos es_error cs = 0.
Proof.
  induction 1 as [| c cs Hc _ (IHi & IHd & IHe)]; [done |].
  rewrite !cuantos_cons, IHi, IHd, IHe. cbn [List.length].
  destruct c; try discriminate. cbn. lia.
Qed.

Lemma clases_todos_insertados (items : list Element) (datas : list fila)
    (t : tabla) (c : string) :
  primary_key model = [c] →
  Forall2 (λ item d, construir_data item = Ok d) items datas →
  List.NoDup (map (λ d, data_get d pk_name) datas) →
  Forall (λ d, data_get d pk_name ≠ VNone ∧ t !! data_get d pk_name = None)
    datas →
  Forall (λ c, es_rechazo c = false) (clases t items) →
  Forall (λ c, es_insertado c = true) (clases t items) ∧
  Forall (λ d, tabla_final t items !! data_get d pk_name = Some d) datas.
Proof.
  intros Hpk Hds. revert t.
  induction Hds as [| item d items datas Hd Hds IH]; intros t Hnd Hnew Hno;
    [split; constructor |].
  cbn [map] in Hnd. apply List.NoDup_cons_iff in Hnd as [Hfresh Hnd].
  apply Forall_cons in Hnew as [[Hn Hnone] Hnew].
  cbn [clases] in Hno. apply Forall_cons in Hno as [Hno1 Hno].
  assert (Hc : clasificar t item = CInsertado (data_get d pk_name) d).
  { revert Hno1. unfold clasificar. rewrite Hd. cbv zeta.
    destruct (decide (data_get d pk_name = VNone)); [done |].
    rewrite Hpk, Hnone.
    by destruct (restriccion model t d). }
  rewrite Hc in Hno. cbn [tabla_tras] in Hno.
  destruct (IH (<[data_get d pk_name := d]> t) Hnd) as [IHc IHt]; [| done |].
  { apply Forall_forall. intros d' Hin.
    rewrite Forall_forall in Hnew. destruct (Hnew d' Hin) as [Hn' Hnone'].
    split; [done |]. rewrite lookup_insert_ne; [done |].
    intros Heq. apply Hfresh. rewrite Heq.
    apply in_map_iff. exists d'. split; [done |].
    by apply list_elem_of_In. }
  cbn [clases]. rewrite tabla_final_cons, Hc. cbn [tabla_tras].
  split; constructor; try done.
  apply tabla_final_conserva, lookup_insert_eq.
Qed.

(** X9: a file of new records goes in whole: when the primary key has one
    column, every record resolves to a dict, the keys of the records are not
    [None], differ from one another and are not in the table, and the
    commit refuses none, every record is inserted, none is counted as
    duplicate or error, and each row is in the table under its key. *)
Theorem todos_insertados (t : tabla) (ya : list mensaje)
    (items : list Element) (datas : list fila) (c : string) :
  primary_key model = [c] →
  Forall2 (λ item d, construir_data item = Ok d) items datas →
  List.NoDup (map (λ d, data_get d pk_name) datas) →
  Forall (λ d, data_get d pk_name ≠ VNone ∧ t !! data_get d pk_name = None)
    datas →
  Forall (λ c, es_rechazo c = false) (clases t items) →
  let st := bucle items (estado_inicial t ya) in
  insertados st = Z.of_nat (List.length items) ∧
  duplicados st = 0 ∧
  errores st = 0 ∧
  Forall (λ d, filas (sesion st) !! data_get d pk_name = Some d) datas.
Proof.
  intros Hpk Hds Hnd Hnew Hno st.
  destruct (clases_todos_insertados items datas t c Hpk Hds Hnd Hnew Hno)
    as [Hins Htab].
  destruct (cuantos_todos_insertados _ Hins) as (Ci & Cd & Ce).
  rewrite clases_length in Ci.
  destruct (bucle_clases items (estado_inicial t ya)
              (estado_inicial_limpia _ _)) as (Hf & Hi & Hd & He).
  fold st in Hf, Hi, Hd, He. simpl in Hf, Hi, Hd, He.
  rewrite Hf. split_and!; [lia | lia | lia | done].
Qed.

(** ** The dict of a record *)

Lemma definir_no_nulo (s : string) (ct : col_type) :
  definir_tipo_de_valor (Some s) ct ≠ Ok VNone.
Proof.
  destruct ct; simpl; try done.
  - by destruct (py_int s).
  - by destruct (py_int s).
  - by destruct (py_float s).
Qed.

(** X10: for a primary-key column without transform, in a schema without
    repeated column names, a record whose dict is built has the key [None]
    exactly when the extraction of its sub-element gives [None]: a text
    that is there never becomes a null key. *)
Theorem pk_nula_sii_sin_texto (item : Element) (data : fila) (ct : col_type) :
  List.NoDup (map fst cols) →
  In (pk_name, ct) cols →
  transforms' !! pk_name = None →
  construir_data item = Ok data →
  data_get data pk_name = VNone ↔
  get_text (find (xml_tag_de pk_name) item) = None.
Proof.
  intros Hnd Hin Htr Hd. split.
  - intros Hnone.
    destruct (llenar_data_get _ _ _ _ _ _ Hnd Hin Hd) as (v & Hv & Hget).
    unfold data_get in Hnone. rewrite Hget in Hnone. simpl in Hnone. subst v.
    unfold valor_de in Hv. cbv zeta in Hv. rewrite Htr in Hv.
    destruct (get_text (find (xml_tag_de pk_name) item)) as [s |]; [| done].
    by apply definir_no_nulo in Hv.
  - intros Hraw. by apply (pk_sin_texto item data ct).
Qed.

Lemma llenar_data_raise_inv (cs : list (string * col_type)) (item : Element)
    (d : fila) (e : excepcion) :
  llenar_data cs item d = Raise e →
  ∃ c ct, In (c, ct) cs ∧ valor_de item c ct = Raise e.
Proof.
  revert d. induction cs as [| [c ct] cs IH]; intros d Hll; [done |].
  simpl in Hll. destruct (valor_de item c ct) as [v | e'] eqn:Hv.
  - destruct (IH _ Hll) as (c' & ct' & Hin & Hv').
    exists c', ct'. split; [by right | done].
  - injection Hll as ->. exists c, ct. split; [by left | done].
Qed.

Lemma valor_de_raise_causa (item : Element) (c : string) (ct : col_type)
    (e : excepcion) :
  valor_de item c ct = Raise e →
  (∃ fn, transforms' !! c = Some fn ∧
         fn (get_text (find (xml_tag_de c) item)) = Raise e) ∨
  (transforms' !! c = None ∧ e = ValueError ∧
   ∃ s, get_text (find (xml_tag_de c) item) = Some s ∧ malformado ct s).
Proof.
  unfold valor_de. cbv zeta.
  destruct (transforms' !! c) as [fn |]; [intros Hfn; left; eauto |].
  intros Hdef. right. split; [done |].
  destruct (get_text (find (xml_tag_de c) item)) as [s |]; [| done].
  destruct ct; simpl in Hdef; try done.
  - destruct (py_int s) eqn:Hp; [done |]. injection Hdef as <-. eauto.
  - destruct (py_int s) eqn:Hp; [done |]. injection Hdef as <-. eauto.
  - destruct (py_float s) eqn:Hp; [done |]. injection Hdef as <-. eauto.
Qed.

(** X11: why the dict of a record is not built, when the source tag of
    every column is a plain name: it raises exactly when the value of some
    column raises, and what it raises comes from a column of the schema in
    one of two ways: the transform registered for the column raised it, or
    the column has no transform, has an integer or floating type, its text
    does not parse, and the exception is [ValueError]. *)
Theorem construir_data_falla :
  ∀ item : Element,
    (∀ c ct, In (c, ct) cols → nombre_simple (xml_tag_de c) = true) →
    ((∃ e, construir_data item = Raise e) ↔
     ∃ c ct e, In (c, ct) cols ∧ valor_de item c ct = Raise e) ∧
    ∀ e, construir_data item = Raise e →
      ∃ c ct, In (c, ct) cols ∧
        ((∃ fn, transforms' !! c = Some fn ∧
                fn (get_text (find (xml_tag_de c) item)) = Raise e) ∨
         (transforms' !! c = None ∧ e = ValueError ∧
          ∃ s, get_text (find (xml_tag_de c) item) = Some s ∧
               malformado ct s)).
Proof.
  intros item _. split; [split |].
  - intros [e He]. destruct (llenar_data_raise_inv _ _ _ _ He)
      as (c & ct & Hin & Hv). eauto.
  - intros (c & ct & e & Hin & Hv).
    by apply (llenar_data_falla cols item ∅ c ct e).
  - intros e He. destruct (llenar_data_raise_inv _ _ _ _ He)
      as (c & ct & Hin & Hv).
    exists c, ct. split; [done |]. by apply valor_de_raise_causa.
Qed.

Lemma llenar_data_dom (cs : list (string * col_type)) (item : Element)
    (d data : fila) (c : string) :
  llenar_data cs item d = Ok data →
  is_Some (data !! c) ↔ is_Some (d !! c) ∨ In c (map fst cs).
Proof.
  revert d. induction cs as [| [c' ct'] cs IH]; intros d Hll.
  - injection Hll as <-. simpl. tauto.
  - simpl in Hll. destruct (valor_de item c' ct') as [v |]; [| done].
    rewrite (IH _ Hll). cbn [map fst In].
    destruct (decide (c' = c)) as [-> | Hne].
    + rewrite lookup_insert_eq. split; [tauto |]. intros _. left. eauto.
    + rewrite lookup_insert_ne by done. tauto.
Qed.

(** X12: the dict of a record has one entry for each column of the schema
    and no other: a column whose sub-element is missing is there with
    [None], and a sub-element that names no column leaves no entry. *)
Theorem construir_data_claves (item : Element) (data : fila) (c : string) :
  construir_data item = Ok data →
  is_Some (data !! c) ↔ In c (map fst cols).
Proof.
  intros Hd. rewrite (llenar_data_dom _ _ _ _ c Hd), lookup_empty.
  split; [| tauto]. intros [[v Hv] | Hin]; [done | done].
Qed.

Lemma find_hijo_de_mas (t tg : string) (tx : option string)
    (cs : list Element) (x : Element) :
  (∃ c, In c cs ∧ tag c = tag x) ∨ tag x ≠ t →
  find t (Elem tg tx (cs ++ [x])) = find t (Elem tg tx cs).
Proof.
  unfold find. cbn [children]. intros Hx.
  induction cs as [| c cs IH].
  - destruct Hx as [(c & [] & _) | Hne]. simpl.
    by destruct (String.eqb_spec (tag x) t).
  - cbn [app List.find].
    destruct (String.eqb_spec (tag c) t) as [Hc | Hc]; [done |].
    apply IH. destruct Hx as [(c0 & [<- | Hin] & Htag) | Hne];
      [right; congruence | left; eauto | by right].
Qed.

Lemma llenar_data_ext (cs : list (string * col_type)) (i1 i2 : Element)
    (d : fila) :
  (∀ c ct, In (c, ct) cs → valor_de i1 c ct = valor_de i2 c ct) →
  llenar_data cs i1 d = llenar_data cs i2 d.
Proof.
  revert d. induction cs as [| [c ct] cs IH]; intros d Hext; [done |].
  simpl. rewrite (Hext c ct) by by left.
  destruct (valor_de i2 c ct); [| done].
  apply IH. intros c' ct' Hin. apply Hext. by right.
Qed.

(** X13: when the source tag of every column is a plain name, for each
    tag the first sub-element counts, and a sub-element no column reads
    counts for nothing: a child added after the others to a record changes
    nothing of its dict when its tag is the tag of a child that is already
    there, or is not the source tag of any column. *)
Theorem hijo_de_mas (tg : string) (tx : option string) (cs : list Element)
    (x : Element) :
  (∀ col ct, In (col, ct) cols → nombre_simple (xml_tag_de col) = true) →
  (∃ c, In c cs ∧ tag c = tag x) ∨
  (∀ col ct, In (col, ct) cols → xml_tag_de col ≠ tag x) →
  construir_data (Elem tg tx (cs ++ [x])) = construir_data (Elem tg tx cs).
Proof.
  intros _ Hx. unfold construir_data. apply llenar_data_ext.
  intros col ct Hin. unfold valor_de. cbv zeta.
  rewrite find_hijo_de_mas; [done |].
  destruct Hx as [Hrep | Hno]; [by left |].
  right. intros Heq. by apply (Hno col ct Hin).
Qed.

End Llamada.

(** ** An empty redirect *)

Section RedireccionVacia.

Variable model : Model.
Variable item_tag : string.
Variable field_map : option (gmap string string).
Variable transforms : option (gmap string (option string → resultado valor)).

Lemma xml_tag_de_vacio (col_name : string) :
  xml_tag_de model field_map (Some "") col_name =
  xml_tag_de model field_map None col_name.
Proof.
  unfold xml_tag_de. cbv zeta.
  by destruct (String.eqb col_name (pk_name model)).
Qed.

Lemma llenar_data_vacio (cs : list (string * col_type)) (item : Element)
    (d : gmap string valor) :
  llenar_data model field_map (Some "") transforms cs item d =
  llenar_data model field_map None transforms cs item d.
Proof.
  revert d. induction cs as [| [c ct] cs IH]; intros d; [done |].
  simpl. unfold valor_de. cbv zeta. rewrite xml_tag_de_vacio.
  destruct (transforms' transforms !! c) as [fn |].
  - destruct (fn _); [apply IH | done].
  - destruct (definir_tipo_de_valor _ ct); [apply IH | done].
Qed.

Lemma iteracion_vacio (st : Estado) (item : Element) :
  iteracion model field_map (Some "") transforms st item =
  iteracion model field_map None transforms st item.
Proof.
  unfold iteracion, cuerpo, ligar, levantar, construir_data.
  by rewrite llenar_data_vacio.
Qed.

Lemma bucle_vacio (items : list Element) (st : Estado) :
  bucle model field_map (Some "") transforms items st =
  bucle model field_map None transforms items st.
Proof.
  revert st. induction items as [| item items IH]; intros st; [done |].
  cbn [bucle fold_left]. rewrite iteracion_vacio. apply IH.
Qed.

(** X14: an empty string as [pk_from] is no redirect: the run is the run
    without [pk_from], with the same rows and the same output. *)
Theorem pk_from_vacio (fs : string → archivo) (t : gmap valor (gmap string valor))
    (nombre_archivo : string) :
  importar_datos model item_tag field_map (Some "") transforms fs t
    nombre_archivo =
  importar_datos model item_tag field_map None transforms fs t nombre_archivo.
Proof.
  unfold importar_datos.
  destruct (fs (xml_file_path nombre_archivo)); [done | done | done |].
  by rewrite bucle_vacio.
Qed.

End RedireccionVacia.

End Valores.

(** * Letter case on the UTF-8 runtime *)

Lemma latin_lower_cons (a : ascii) (r : string) :
  latin_lower (String a r) =
  if Nat.eqb (nat_of_ascii a) 195 then
    match r with
    | String b r' => String a (String (baja_latin b) (latin_lower r'))
    | EmptyString => String a EmptyString
    end
  else String (baja_ascii a) (latin_lower r).
Proof.
  cbn [latin_lower]. unfold baja_ascii, baja_latin. cbv zeta.
  destruct (Nat.eqb_spec (nat_of_ascii a) 195) as [E | E].
  - rewrite E. cbn [Nat.leb andb]. by destruct r.
  - by destruct (Nat.leb 65 (nat_of_ascii a) && Nat.leb (nat_of_ascii a) 90).
Qed.

Lemma misma_letra_inv (otra : ascii → option ascii) (a b : ascii) :
  misma_letra otra a b = true → b = a ∨ otra a = Some b.
Proof.
  unfold misma_letra. intros H. apply orb_true_iff in H as [H | H].
  - apply Ascii.eqb_eq in H. by left.
  - destruct (otra a) as [c |]; [| done]. apply Ascii.eqb_eq in H.
    right. by subst.
Qed.

(** A test that holds of the 256 characters holds of every character. *)
Lemma para_todo_ascii (p : ascii → bool) :
  forallb (λ n, p (ascii_of_nat n)) (seq 0 256) = true → ∀ a, p a = true.
Proof.
  intros H a. rewrite <- (ascii_nat_embedding a).
  rewrite forallb_forall in H. apply H. apply in_seq.
  pose proof (nat_ascii_bounded a). lia.
Qed.

Lemma otra_ascii_baja (a c : ascii) :
  otra_ascii a = Some c →
  baja_ascii c = baja_ascii a ∧
  Nat.eqb (nat_of_ascii a) 195 = false ∧ Nat.eqb (nat_of_ascii c) 195 = false.
Proof.
  pose proof (para_todo_ascii
    (λ a, match otra_ascii a with
          | Some c =>
              Ascii.eqb (baja_ascii c) (baja_ascii a) &&
              negb (Nat.eqb (nat_of_ascii a) 195) &&
              negb (Nat.eqb (nat_of_ascii c) 195)
          | None => true
          end) ltac:(vm_compute; reflexivity) a) as H.
  cbv beta in H. intros Hc. rewrite Hc in H.
  apply andb_true_iff in H as [H H3]. apply andb_true_iff in H as [H1 H2].
  apply Ascii.eqb_eq in H1. apply negb_true_iff in H2, H3. done.
Qed.

Lemma otra_latin_baja (b d : ascii) :
  otra_latin b = Some d → baja_latin d = baja_latin b.
Proof.
  pose proof (para_todo_ascii
    (λ b, match otra_latin b with
          | Some d => Ascii.eqb (baja_latin d) (baja_latin b)
          | None => true
          end) ltac:(vm_compute; reflexivity) b) as H.
  cbv beta in H. intros Hd. rewrite Hd in H. by apply Ascii.eqb_eq in H.
Qed.

Lemma misma_baja_ascii (a : ascii) :
  misma_letra otra_ascii a (baja_ascii a) = true.
Proof.
  exact (para_todo_ascii (λ a, misma_letra otra_ascii a (baja_ascii a))
           ltac:(vm_compute; reflexivity) a).
Qed.

Lemma misma_baja_latin (b : ascii) :
  misma_letra otra_latin b (baja_latin b) = true.
Proof.
  exact (para_todo_ascii (λ b, misma_letra otra_latin b (baja_latin b))
           ltac:(vm_compute; reflexivity) b).
Qed.

(** A string and its lower case differ at most in case. *)
Lemma sin_caja_lower (s : string) : sin_caja s (latin_lower s) = true.
Proof.
  cut (sin_caja s (latin_lower s) = true ∧
       ∀ a, sin_caja (String a s) (latin_lower (String a s)) = true);
    [tauto |].
  induction s as [| c u [IH1 IH2]].
  - split; [done |]. intros a. rewrite latin_lower_cons.
    destruct (Nat.eqb (nat_of_ascii a) 195) eqn:E.
    + cbn [sin_caja]. rewrite E, Ascii.eqb_refl. done.
    + cbn [sin_caja latin_lower]. rewrite E, misma_baja_ascii. done.
  - split; [apply IH2 |]. intros a. rewrite latin_lower_cons.
    destruct (Nat.eqb (nat_of_ascii a) 195) eqn:E.
    + cbn [sin_caja]. rewrite E, Ascii.eqb_refl, misma_baja_latin, IH1. done.
    + cbn [sin_caja]. rewrite E, misma_baja_ascii. cbn [andb]. apply IH2.
Qed.

(** Strings that differ at most in case have the same lower case. *)
Lemma lower_sin_caja (s t : string) :
  sin_caja s t = true → latin_lower s = latin_lower t.
Proof.
  cut ((∀ t, sin_caja s t = true → latin_lower s = latin_lower t) ∧
       ∀ a t, sin_caja (String a s) t = true →
              latin_lower (String a s) = latin_lower t);
    [intros [H _]; apply H |].
  clear t. induction s as [| c u [IH1 IH2]].
  - split; [by intros [] |].
    intros a [| b r']; [done |]. cbn [sin_caja].
    rewrite (latin_lower_cons a), (latin_lower_cons b).
    destruct (Nat.eqb (nat_of_ascii a) 195) eqn:E.
    + intros H. apply andb_true_iff in H as [Hab H].
      apply Ascii.eqb_eq in Hab. subst b. rewrite E. by destruct r'.
    + intros H. apply andb_true_iff in H as [Hab H].
      destruct r'; [| done].
      apply misma_letra_inv in Hab as [-> | Hab]; [by rewrite E |].
      apply otra_ascii_baja in Hab as (Hb & _ & E'). by rewrite E', Hb.
  - split; [apply IH2 |].
    intros a [| b r']; [done |]. cbn [sin_caja].
    rewrite (latin_lower_cons a), (latin_lower_cons b).
    destruct (Nat.eqb (nat_of_ascii a) 195) eqn:E.
    + intros H. apply andb_true_iff in H as [Hab H].
      apply Ascii.eqb_eq in Hab. subst b. rewrite E.
      destruct r' as [| d u']; [done |].
      apply andb_true_iff in H as [Hcd H].
      rewrite (IH1 _ H).
      apply misma_letra_inv in Hcd as [-> | Hcd]; [done |].
      by rewrite (otra_latin_baja _ _ Hcd).
    + intros H. apply andb_true_iff in H as [Hab H].
      rewrite (IH2 c r' H).
      apply misma_letra_inv in Hab as [-> | Hab]; [by rewrite E |].
      apply otra_ascii_baja in Hab as (Hb & _ & E'). by rewrite E', Hb.
Qed.

(** The lower case of a string is a token exactly when the string differs
    from a token at most in case. *)
Lemma lower_en_tokens (s : string) :
  In (latin_lower s) ["1"; "true"; "t"; "yes"; "y"; "si"; "sí"] ↔
  ∃ t, In t ["1"; "true"; "t"; "yes"; "y"; "si"; "sí"] ∧ sin_caja s t = true.
Proof.
  split.
  - intros Hin. exists (latin_lower s). split; [done | apply sin_caja_lower].
  - intros (t & Hin & Hst). rewrite (lower_sin_caja _ _ Hst).
    simpl in Hin. destruct Hin as [<- | [<- | [<- | [<- | [<- | [<- | [<- | []]]]]]]];
      cbn; tauto.
Qed.

(** C3: on a non-null string a Boolean column gets [True] exactly when the
    string, compared without regard to the case of its letters, is one of
    the seven tokens, and [False] for every other string; the coercion
    raises nothing. *)
Theorem definir_tipo_de_valor_boolean (s : string) :
  (definir_tipo_de_valor (Some s) ColBoolean = Ok (VBool true) ↔
     ∃ t, In t ["1"; "true"; "t"; "yes"; "y"; "si"; "sí"] ∧
          sin_caja s t = true) ∧
  (definir_tipo_de_valor (Some s) ColBoolean = Ok (VBool false) ↔
     ¬ ∃ t, In t ["1"; "true"; "t"; "yes"; "y"; "si"; "sí"] ∧
            sin_caja s t = true) ∧
  (∀ e, definir_tipo_de_valor (Some s) ColBoolean ≠ Raise e).
Proof.
  destruct (definir_boolean_tokens s) as (Ht & Hf & He).
  change (str_lower s) with (latin_lower s) in Ht, Hf.
  rewrite lower_en_tokens in Ht, Hf. done.
Qed.

(** * Examples on the UTF-8 runtime

    A table of localities with an integer key, a name and a flag, which
    accepts every row, and a few export files. *)

Definition Localidad : Model :=
  {| model_name := "Localidad";
     columns := [("id", ColInteger); ("nombre", ColString);
                 ("activa", ColBoolean)];
     primary_key := ["id"];
     restriccion := λ _ _, None |}.

Definition campo (nombre : string) (contenido : string) : Element :=
  Elem nombre (Some contenido) [].

Definition registro (id nombre activa : string) : Element :=
  Elem "_exportar" None
    [campo "id" id; campo "nombre" nombre; campo "activa" activa].

(** A record without the sub-element of the primary key. *)
Definition registro_sin_id : Element :=
  Elem "_exportar" None [campo "nombre" "Tunuyan"; campo "activa" "si"].

(** A record whose key is not an integer literal. *)
Definition registro_mal_id : Element := registro "12a" "Malargue" "no".

Definition mendoza : Element := registro "1" "Mendoza" "SI".
Definition san_rafael : Element := registro "2" "San Rafael" "no".
Definition otra_mendoza : Element := registro "1" "Mendoza (bis)" "no".

Definition doc_repetido : Element :=
  Elem "VFPData" None [mendoza; otra_mendoza].

Definition doc_distintos : Element :=
  Elem "VFPData" None [mendoza; san_rafael].

Definition fila_mendoza : gmap string valor :=
  <["activa" := VBool true]>
    (<["nombre" := VStr "Mendoza"]> (<["id" := VInt 1]> ∅)).

Definition fila_otra_mendoza : gmap string valor :=
  <["activa" := VBool false]>
    (<["nombre" := VStr "Mendoza (bis)"]> (<["id" := VInt 1]> ∅)).

Definition fila_sin_id : gmap string valor :=
  <["activa" := VBool true]>
    (<["nombre" := VStr "Tunuyan"]> (<["id" := VNone]> ∅)).

(** Localities with a parent locality: the table refuses a row whose
    parent is not in it, as a foreign key on the table itself does. *)
Definition Localidad_hija : Model :=
  {| model_name := "Localidad";
     columns := [("id", ColInteger); ("padre", ColInteger)];
     primary_key := ["id"];
     restriccion := λ t r,
       match data_get r "padre" with
       | VNone => None
       | padre =>
           match t !! padre with
           | Some _ => None
           | None => Some IntegrityError
           end
       end |}.

(** A child listed before its parent. *)
Definition doc_hija_antes : Element :=
  Elem "VFPData" None
    [Elem "_exportar" None [campo "id" "1"; campo "padre" "2"];
     Elem "_exportar" None [campo "id" "2"]].

Definition primera_hija : Estado :=
  bucle Localidad_hija None None None (findall "_exportar" doc_hija_antes)
    (estado_inicial ∅ []).

Definition segunda_hija : Estado :=
  bucle Localidad_hija None None None (findall "_exportar" doc_hija_antes)
    (estado_inicial (filas (sesion primera_hija)) []).

(** The first and the second import of [doc_repetido] into an empty
    table. *)
Definition primera_repetido : Estado :=
  bucle Localidad None None None (findall "_exportar" doc_repetido)
    (estado_inicial ∅ []).

Definition segunda_repetido : Estado :=
  bucle Localidad None None None (findall "_exportar" doc_repetido)
    (estado_inicial (filas (sesion primera_repetido)) []).

(** The imports of [doc_repetido], state by state, as a run does them. *)
Definition corrida1 : gmap valor (gmap string valor) * list mensaje :=
  importar_datos Localidad "_exportar" None None None
    (λ _, Documento doc_repetido) ∅ "localidades.xml".

Definition corrida2 : gmap valor (gmap string valor) * list mensaje :=
  importar_datos Localidad "_exportar" None None None
    (λ _, Documento doc_repetido) (fst corrida1) "localidades.xml".

Example coercion_booleana :
  map (λ s, definir_tipo_de_valor (Some s) ColBoolean)
    ["1"; "true"; "T"; "yes"; "Y"; "si"; "SÍ"; "no"; "0"; "verdadero"; " si"] =
  map (λ b, Ok (VBool b))
    [true; true; true; true; true; true; true; false; false; false; false].
Proof. reflexivity. Qed.

Example coercion_entera :
  definir_tipo_de_valor (Some "42") ColInteger = Ok (VInt 42) ∧
  definir_tipo_de_valor (Some "12a") ColBigInteger = Raise ValueError ∧
  definir_tipo_de_valor None ColInteger = Ok VNone.
Proof. repeat split. Qed.

Example data_de_mendoza :
  construir_data Localidad None None None mendoza = Ok fila_mendoza.
Proof. reflexivity. Qed.

Example importar_repetido :
  importar_datos Localidad "_exportar" None None None
    (λ _, Documento doc_repetido) ∅ "localidades.xml" =
  (<[VInt 1 := fila_mendoza]> ∅,
   [MsgImportando "Localidad" "/srv/sysacad/archivados_xml/localidades.xml";
    MsgDuplicado (VInt 1);
    MsgResumen "Localidad" 1 1 0]).
Proof. reflexivity. Qed.

(** A record the commit refused in the first run can go in on the second:
    the child whose parent came after it. *)
Example reimportar_hija :
  (insertados primera_hija, duplicados primera_hija, errores primera_hija)
    = (1, 0, 1) ∧
  (insertados segunda_hija, duplicados segunda_hija, errores segunda_hija)
    = (1, 1, 0).
Proof. split; vm_compute; reflexivity. Qed.

(** ** Where the code departs from a claim *)

(** C1: a file with the key 1 twice, imported twice into an empty table:
    the first run inserts one record and finds one duplicate, the second
    finds two duplicates, not one. *)
Lemma reimportar_counterexample :
  snd corrida1 =
    [MsgImportando "Localidad" "/srv/sysacad/archivados_xml/localidades.xml";
     MsgDuplicado (VInt 1);
     MsgResumen "Localidad" 1 1 0] ∧
  snd corrida2 =
    [MsgImportando "Localidad" "/srv/sysacad/archivados_xml/localidades.xml";
     MsgDuplicado (VInt 1);
     MsgDuplicado (VInt 1);
     MsgResumen "Localidad" 0 2 0] ∧
  duplicados segunda_repetido ≠ insertados primera_repetido.
Proof. split; [reflexivity |]. split; [reflexivity |]. vm_compute. discriminate. Qed.

(** C5: with an entry of the field map and a redirect both on the primary
    key, the tag is the one of the redirect. *)
Lemma xml_tag_counterexample :
  xml_tag_de Localidad (Some (<["id" := "identificador"]> ∅)) (Some "codigo")
    "id" = "codigo" ∧
  xml_tag_de Localidad (Some (<["id" := "identificador"]> ∅)) (Some "codigo")
    "id" ≠ "identificador".
Proof. split; [reflexivity | vm_compute; discriminate]. Qed.

(** C7: with no file the run prints one line, and it is not a summary with
    three zero counts. *)
Lemma archivo_ausente_counterexample :
  importar_datos Localidad "_exportar" None None None (λ _, NoExiste) ∅
    "localidades.xml" =
    (∅, [MsgNoEncontrado "/srv/sysacad/archivados_xml/localidades.xml"]) ∧
  ¬ In (MsgResumen "Localidad" 0 0 0)
      (snd (importar_datos Localidad "_exportar" None None None
              (λ _, NoExiste) ∅ "localidades.xml")).
Proof.
  split; [reflexivity |]. intros [H | []]. discriminate H.
Qed.

(** C8: a sub-element whose text is three blanks gives the empty string,
    not [None]. *)
Lemma get_text_blank_counterexample :
  get_text (Some (campo "id" "   ")) = Some "" ∧
  get_text (Some (campo "id" "   ")) ≠ None.
Proof. split; [reflexivity | discriminate]. Qed.

(** ** The theorems at the examples *)

(** Importing [doc_distintos] twice: the commit refuses nothing, and the
    second run only finds duplicates. *)
Lemma reimportar_witness :
  Forall (λ c, es_rechazo c = false)
    (clases Localidad None None None ∅ (findall "_exportar" doc_distintos)) ∧
  let st1 :=
    bucle Localidad None None None (findall "_exportar" doc_distintos)
      (estado_inicial ∅ []) in
  let st2 :=
    bucle Localidad None None None (findall "_exportar" doc_distintos)
      (estado_inicial (filas (sesion st1)) []) in
  insertados st2 = 0 ∧
  duplicados st2 = insertados st1 + duplicados st1 ∧
  errores st2 = errores st1 ∧
  filas (sesion st2) = filas (sesion st1) ∧
  (duplicados st1 = 0 → duplicados st2 = insertados st1).
Proof.
  assert (H : Forall (λ c, es_rechazo c = false)
                (clases Localidad None None None ∅
                   (findall "_exportar" doc_distintos))).
  { repeat constructor. }
  split; [exact H |].
  exact (reimportar Localidad None None None ∅ [] []
           (findall "_exportar" doc_distintos) H).
Defined.

(** The record without [id] is an error and nothing else. *)
Lemma pk_nula_es_error_witness :
  construir_data Localidad None None None registro_sin_id = Ok fila_sin_id ∧
  data_get fila_sin_id (pk_name Localidad) = VNone ∧
  errores
    (iteracion Localidad None None None (estado_inicial ∅ []) registro_sin_id)
  = errores (estado_inicial ∅ []) + 1.
Proof.
  split; [reflexivity |]. split; [reflexivity |].
  pose proof (pk_nula_es_error Localidad None None None (estado_inicial ∅ [])
                registro_sin_id fila_sin_id eq_refl eq_refl) as H.
  exact (proj1 (proj2 (proj2 (proj2 (proj2 (proj2 H)))))).
Defined.

(** With [pk_from = "codigo"] and a field map on [nombre]: the key is read
    from [codigo], the name from [descripcion], the flag from [activa]. *)
Lemma xml_tag_precedence_witness :
  xml_tag_de Localidad (Some (<["nombre" := "descripcion"]> ∅))
    (Some "codigo") "id" = "codigo" ∧
  xml_tag_de Localidad (Some (<["nombre" := "descripcion"]> ∅))
    (Some "codigo") "nombre" = "descripcion" ∧
  xml_tag_de Localidad (Some (<["nombre" := "descripcion"]> ∅))
    (Some "codigo") "activa" = "activa".
Proof.
  split; [| split].
  - apply (proj1 (xml_tag_precedence Localidad
                    (Some (<["nombre" := "descripcion"]> ∅)) (Some "codigo")
                    "id") "codigo");
      [reflexivity | reflexivity | discriminate].
  - apply (proj1 (proj2 (xml_tag_precedence Localidad
                    (Some (<["nombre" := "descripcion"]> ∅)) (Some "codigo")
                    "nombre")) "descripcion");
      [intros [H _]; discriminate H | reflexivity].
  - apply (proj2 (proj2 (xml_tag_precedence Localidad
                    (Some (<["nombre" := "descripcion"]> ∅)) (Some "codigo")
                    "activa")));
      [intros [H _]; discriminate H | reflexivity].
Defined.

(** The record with the key [12a], alone and between two good records. *)
Lemma fallo_aislado_witness :
  fst (cuerpo Localidad None None None registro_mal_id (estado_inicial ∅ []))
    = Raise ValueError ∧
  errores
    (iteracion Localidad None None None (estado_inicial ∅ []) registro_mal_id)
    = errores (estado_inicial ∅ []) + 1 ∧
  malformado ColInteger "12a" ∧
  errores
    (bucle Localidad None None None [mendoza; registro_mal_id; san_rafael]
       (estado_inicial ∅ []))
  = errores
      (bucle Localidad None None None [mendoza; san_rafael]
         (estado_inicial ∅ [])) + 1.
Proof.
  pose proof (fallo_aislado Localidad None None None) as [H1 H2].
  assert (Hr : fst (cuerpo Localidad None None None registro_mal_id
                      (estado_inicial ∅ [])) = Raise ValueError)
    by reflexivity.
  assert (Hmal : malformado ColInteger "12a") by reflexivity.
  assert (Hraw : get_text
                   (find (xml_tag_de Localidad None None "id")
                      registro_mal_id) = Some "12a") by reflexivity.
  assert (Htr : transforms' None !! "id" = None) by reflexivity.
  split; [exact Hr |]. split.
  - exact (proj1 (proj2 (proj2 (H1 (estado_inicial ∅ []) registro_mal_id
                                   ValueError Hr)))).
  - split; [exact Hmal |].
    assert (Hin : In ("id", ColInteger) (cols Localidad))
      by (left; reflexivity).
    exact (proj2 (proj2 (proj2 (proj2 (proj2
             (H2 ∅ [] [mendoza] [san_rafael] registro_mal_id "id" "12a"
                 ColInteger Hin Htr Hraw Hmal)))))).
Defined.

(** No file at the path of [localidades.xml]. *)
Lemma archivo_ausente_witness :
  importar_datos Localidad "_exportar" None None None (λ _, NoExiste) ∅
    "localidades.xml" =
  (∅, [MsgNoEncontrado (xml_file_path "localidades.xml")]).
Proof.
  exact (proj1 (archivo_ausente Localidad "_exportar" None None None
                  (λ _, NoExiste) ∅ "localidades.xml" eq_refl)).
Defined.

(** A text with blanks around a digit, and a text of blanks. *)
Lemma get_text_stripped_witness :
  get_text (Some (campo "id" " 7 ")) = Some "7" ∧
  get_text (Some (campo "id" "   ")) = Some "".
Proof.
  assert (H7 : " 7 " ≠ "") by discriminate.
  assert (Hb : "   " ≠ "") by discriminate.
  split.
  - exact (proj1 (proj2 (get_text_stripped (Some (campo "id" " 7 "))))
             (campo "id" " 7 ") " 7 " eq_refl eq_refl H7).
  - exact (proj2 (proj2 (get_text_stripped (Some (campo "id" "   "))))
             (campo "id" "   ") "   " eq_refl eq_refl Hb eq_refl).
Defined.

(** [mendoza], then [san_rafael], then [otra_mendoza] with the key of the
    first: the row under 1 stays the one of [mendoza]. *)
Lemma duplicado_en_archivo_witness :
  construir_data Localidad None None None mendoza = Ok fila_mendoza ∧
  construir_data Localidad None None None otra_mendoza = Ok fila_otra_mendoza ∧
  filas
    (sesion
       (bucle Localidad None None None
          ([] ++ mendoza :: [san_rafael] ++ otra_mendoza :: [])
          (estado_inicial ∅ []))) !! VInt 1 = Some fila_mendoza.
Proof.
  assert (Ha : construir_data Localidad None None None mendoza
               = Ok fila_mendoza) by reflexivity.
  assert (Hb : construir_data Localidad None None None otra_mendoza
               = Ok fila_otra_mendoza) by reflexivity.
  assert (Hka : data_get fila_mendoza (pk_name Localidad) = VInt 1)
    by reflexivity.
  assert (Hkb : data_get fila_otra_mendoza (pk_name Localidad) = VInt 1)
    by reflexivity.
  assert (Hk : VInt 1 ≠ VNone) by discriminate.
  assert (Hins : insertados
                   (iteracion Localidad None None None
                      (bucle Localidad None None None []
                         (estado_inicial ∅ [])) mendoza)
                 = insertados
                     (bucle Localidad None None None []
                        (estado_inicial ∅ [])) + 1) by reflexivity.
  split; [exact Ha |]. split; [exact Hb |].
  exact (proj2 (proj2 (proj2 (proj2
           (duplicado_en_archivo Localidad None None None ∅ [] []
              [san_rafael] [] mendoza otra_mendoza fila_mendoza
              fila_otra_mendoza (VInt 1) Ha Hb Hka Hkb Hk Hins))))).
Defined.

(** ** The further properties at the examples *)

Definition fila_san_rafael : gmap string valor :=
  <["activa" := VBool false]>
    (<["nombre" := VStr "San Rafael"]> (<["id" := VInt 2]> ∅)).

(** A table that already has a row under the key 1. *)
Definition tabla_con_uno : gmap valor (gmap string valor) :=
  <[VInt 1 := fila_otra_mendoza]> ∅.

(** A document whose records are one level below the children of the
    root. *)
Definition doc_anidado : Element :=
  Elem "VFPData" None [Elem "dataroot" None [mendoza; san_rafael]].

(** [mendoza] with a second [id] after its sub-elements. *)
Definition hijos_mendoza : list Element :=
  [campo "id" "1"; campo "nombre" "Mendoza"; campo "activa" "SI"].

(** The source tags of [Localidad], without field map or redirect, are
    plain names. *)
Lemma tags_simples_Localidad :
  ∀ c ct, In (c, ct) (cols Localidad) →
    nombre_simple (xml_tag_de Localidad None None c) = true.
Proof.
  intros c ct [H | [H | [H | []]]]; injection H as <- <-; reflexivity.
Defined.

(** The row under 1 stays what it was when [mendoza] comes with the same
    key. *)
Lemma importar_conserva_filas_witness :
  tabla_con_uno !! VInt 1 = Some fila_otra_mendoza ∧
  fst (importar_datos Localidad "_exportar" None None None
         (λ _, Documento doc_distintos) tabla_con_uno "localidades.xml")
    !! VInt 1 = Some fila_otra_mendoza.
Proof.
  split; [reflexivity |].
  exact (importar_conserva_filas Localidad "_exportar" None None None
           (λ _, Documento doc_distintos) tabla_con_uno "localidades.xml"
           (VInt 1) fila_otra_mendoza eq_refl).
Defined.

(** The row under 2 after importing [doc_distintos] into an empty table
    comes from a record of the document. *)
Lemma importar_origen_filas_witness :
  fst (importar_datos Localidad "_exportar" None None None
         (λ _, Documento doc_distintos) ∅ "localidades.xml")
    !! VInt 2 = Some fila_san_rafael ∧
  ((∅ : gmap valor (gmap string valor)) !! VInt 2 = Some fila_san_rafael ∨
   ∃ root item,
     Documento doc_distintos = Documento root ∧
     In item (findall "_exportar" root) ∧
     construir_data Localidad None None None item = Ok fila_san_rafael ∧
     data_get fila_san_rafael (pk_name Localidad) = VInt 2 ∧
     VInt 2 ≠ VNone).
Proof.
  assert (H : fst (importar_datos Localidad "_exportar" None None None
                     (λ _, Documento doc_distintos) ∅ "localidades.xml")
                 !! VInt 2 = Some fila_san_rafael) by reflexivity.
  split; [exact H |].
  exact (importar_origen_filas Localidad "_exportar" None None None
           (λ _, Documento doc_distintos) ∅ "localidades.xml"
           (VInt 2) fila_san_rafael H).
Defined.


(** The records of [doc_anidado] are not children of its root. *)
Lemma sin_registros_witness :
  Forall (λ c, tag c ≠ "_exportar") (children doc_anidado) ∧
  importar_datos Localidad "_exportar" None None None
    (λ _, Documento doc_anidado) ∅ "localidades.xml" =
  (∅,
   [MsgImportando (model_name Localidad) (xml_file_path "localidades.xml");
    MsgResumen (model_name Localidad) 0 0 0]).
Proof.
  assert (H : Forall (λ c, tag c ≠ "_exportar") (children doc_anidado)).
  { apply Forall_singleton. discriminate. }
  assert (Hs : nombre_simple "_exportar" = true) by reflexivity.
  split; [exact H |].
  exact (sin_registros Localidad "_exportar" None None None
           (λ _, Documento doc_anidado) ∅ "localidades.xml" doc_anidado
           Hs eq_refl H).
Defined.

(** [mendoza] and [san_rafael] into an empty table. *)
Lemma todos_insertados_witness :
  insertados
    (bucle Localidad None None None [mendoza; san_rafael]
       (estado_inicial ∅ [])) = 2 ∧
  Forall
    (λ d,
       filas
         (sesion
            (bucle Localidad None None None [mendoza; san_rafael]
               (estado_inicial ∅ []))) !! data_get d (pk_name Localidad)
       = Some d)
    [fila_mendoza; fila_san_rafael].
Proof.
  assert (Hds : Forall2
                  (λ item d, construir_data Localidad None None None item
                             = Ok d)
                  [mendoza; san_rafael] [fila_mendoza; fila_san_rafael]).
  { repeat constructor. }
  assert (Hnd : List.NoDup
                  (map (λ d, data_get d (pk_name Localidad))
                     [fila_mendoza; fila_san_rafael])).
  { change (List.NoDup [VInt 1; VInt 2]).
    constructor; [| constructor; [intros [] | constructor]].
    intros [H | []]. discriminate H. }
  assert (Hnew : Forall
                   (λ d, data_get d (pk_name Localidad) ≠ VNone ∧
                         (∅ : gmap valor (gmap string valor))
                           !! data_get d (pk_name Localidad) = None)
                   [fila_mendoza; fila_san_rafael]).
  { constructor; [| constructor; [| constructor]].
    - split; [| reflexivity]. change (VInt 1 ≠ VNone). discriminate.
    - split; [| reflexivity]. change (VInt 2 ≠ VNone). discriminate. }
  assert (Hno : Forall (λ c, es_rechazo c = false)
                  (clases Localidad None None None ∅ [mendoza; san_rafael])).
  { repeat constructor. }
  pose proof (todos_insertados Localidad None None None ∅ []
                [mendoza; san_rafael] [fila_mendoza; fila_san_rafael] "id"
                eq_refl Hds Hnd Hnew Hno) as H.
  split; [exact (proj1 H) | exact (proj2 (proj2 (proj2 H)))].
Defined.

(** The record without [id] has a null key and no text for it. *)
Lemma pk_nula_sii_sin_texto_witness :
  construir_data Localidad None None None registro_sin_id = Ok fila_sin_id ∧
  (data_get fila_sin_id (pk_name Localidad) = VNone ↔
   get_text
     (find (xml_tag_de Localidad None None (pk_name Localidad))
        registro_sin_id) = None).
Proof.
  assert (Hd : construir_data Localidad None None None registro_sin_id
               = Ok fila_sin_id) by reflexivity.
  assert (Htr : transforms' None !! pk_name Localidad = None)
    by reflexivity.
  split; [exact Hd |].
  assert (Hnd : List.NoDup (map fst (cols Localidad))).
  { change (List.NoDup ["id"; "nombre"; "activa"]).
    constructor; [| constructor; [| constructor; [intros [] | constructor]]].
    - intros [H | [H | []]]; discriminate H.
    - intros [H | []]. discriminate H. }
  assert (Hin : In (pk_name Localidad, ColInteger) (cols Localidad))
    by (left; reflexivity).
  exact (pk_nula_sii_sin_texto Localidad None None None registro_sin_id
           fila_sin_id ColInteger Hnd Hin Htr Hd).
Defined.

(** The record with the key [12a] fails in the column [id]. *)
Lemma construir_data_falla_witness :
  construir_data Localidad None None None registro_mal_id = Raise ValueError ∧
  ∃ c ct, In (c, ct) (cols Localidad) ∧
    ((∃ fn, transforms' None !! c = Some fn ∧
            fn (get_text (find (xml_tag_de Localidad None None c)
                            registro_mal_id)) = Raise ValueError) ∨
     (transforms' None !! c = None ∧ ValueError = ValueError ∧
      ∃ s, get_text (find (xml_tag_de Localidad None None c)
                       registro_mal_id) = Some s ∧
           malformado ct s)).
Proof.
  assert (Hd : construir_data Localidad None None None registro_mal_id
               = Raise ValueError) by reflexivity.
  split; [exact Hd |].
  exact (proj2 (construir_data_falla Localidad None None None
                  registro_mal_id tags_simples_Localidad) ValueError Hd).
Defined.

(** The dict of [mendoza] has the column [nombre]. *)
Lemma construir_data_claves_witness :
  construir_data Localidad None None None mendoza = Ok fila_mendoza ∧
  (is_Some (fila_mendoza !! "nombre") ↔
   In "nombre" (map fst (cols Localidad))).
Proof.
  assert (Hd : construir_data Localidad None None None mendoza
               = Ok fila_mendoza) by reflexivity.
  split; [exact Hd |].
  exact (construir_data_claves Localidad None None None mendoza fila_mendoza
           "nombre" Hd).
Defined.

(** A second [id] after the sub-elements of [mendoza] changes nothing. *)
Lemma hijo_de_mas_witness :
  construir_data Localidad None None None
    (Elem "_exportar" None (hijos_mendoza ++ [campo "id" "99"])) =
  construir_data Localidad None None None
    (Elem "_exportar" None hijos_mendoza).
Proof.
  apply (hijo_de_mas Localidad None None None);
    [exact tags_simples_Localidad |].
  left. exists (campo "id" "1"). split; [left; reflexivity | reflexivity].
Defined.

(** ** Coercion at the examples *)

Example coercion_flotante :
  map decimal_float ["3.5"; " -2.5 "; "1_0.5e-1"; ".5"; "1e"; "abc"; "NaN";
                     "-Infinity"; "1e309"; "-0.0"] =
  [Some (S754_finite false 7881299347898368 (-51));
   Some (S754_finite true 5629499534213120 (-51));
   Some (S754_finite false 4728779608739021 (-52));
   Some (S754_finite false 4503599627370496 (-53));
   None; None; Some S754_nan; Some (S754_infinity true);
   Some (S754_infinity false); Some (S754_zero true)].
Proof. vm_compute. reflexivity. Qed.

(** [TRUE], [T], [Yes] and [SÍ] are true, [no] and [verdadero] are not. *)
Lemma definir_tipo_de_valor_boolean_witness :
  definir_tipo_de_valor (Some "TRUE") ColBoolean = Ok (VBool true) ∧
  definir_tipo_de_valor (Some "T") ColBoolean = Ok (VBool true) ∧
  definir_tipo_de_valor (Some "Yes") ColBoolean = Ok (VBool true) ∧
  definir_tipo_de_valor (Some "SÍ") ColBoolean = Ok (VBool true) ∧
  definir_tipo_de_valor (Some "no") ColBoolean = Ok (VBool false) ∧
  definir_tipo_de_valor (Some "verdadero") ColBoolean = Ok (VBool false).
Proof.
  split_and!.
  - apply (proj1 (definir_tipo_de_valor_boolean "TRUE")).
    exists "true". split; [simpl; tauto | reflexivity].
  - apply (proj1 (definir_tipo_de_valor_boolean "T")).
    exists "t". split; [simpl; tauto | reflexivity].
  - apply (proj1 (definir_tipo_de_valor_boolean "Yes")).
    exists "yes". split; [simpl; tauto | reflexivity].
  - apply (proj1 (definir_tipo_de_valor_boolean "SÍ")).
    exists "sí". split; [simpl; tauto | reflexivity].
  - apply (proj1 (proj2 (definir_tipo_de_valor_boolean "no"))).
    intros (t & Hin & H). simpl in Hin.
    destruct Hin as [<- | [<- | [<- | [<- | [<- | [<- | [<- | []]]]]]]];
      vm_compute in H; discriminate H.
  - apply (proj1 (proj2 (definir_tipo_de_valor_boolean "verdadero"))).
    intros (t & Hin & H). simpl in Hin.
    destruct Hin as [<- | [<- | [<- | [<- | [<- | [<- | [<- | []]]]]]]];
      vm_compute in H; discriminate H.
Defined.

(** An integer, a text that is no integer, a float, a text that is no
    float, a text for a text column, and no text. *)
Lemma definir_tipo_de_valor_spec_witness :
  definir_tipo_de_valor (Some "42") ColInteger = Ok (VInt 42) ∧
  definir_tipo_de_valor (Some "12a") ColBigInteger = Raise ValueError ∧
  definir_tipo_de_valor (Some "3.5") ColFloat
    = Ok (VFloat (S754_finite false 7881299347898368 (-51))) ∧
  definir_tipo_de_valor (Some "1e") ColFloat = Raise ValueError ∧
  definir_tipo_de_valor (Some " x ") ColText = Ok (VStr " x ") ∧
  definir_tipo_de_valor None ColFloat = Ok VNone.
Proof.
  assert (H42 : py_int "42" = Some 42) by reflexivity.
  assert (H12 : malformado ColBigInteger "12a") by reflexivity.
  assert (H35 : py_float "3.5"
                = Some (S754_finite false 7881299347898368 (-51)))
    by (vm_compute; reflexivity).
  assert (H1e : malformado ColFloat "1e") by reflexivity.
  split_and!.
  - exact (proj1 (proj2 (proj2
             (definir_tipo_de_valor_spec (Some "42") ColInteger)))
             "42" 42 eq_refl (or_introl eq_refl) H42).
  - exact (proj1 (proj2 (proj2 (proj2 (proj2
             (definir_tipo_de_valor_spec (Some "12a") ColBigInteger)))))
             "12a" eq_refl H12).
  - exact (proj1 (proj2 (proj2 (proj2
             (definir_tipo_de_valor_spec (Some "3.5") ColFloat))))
             "3.5" _ eq_refl eq_refl H35).
  - exact (proj1 (proj2 (proj2 (proj2 (proj2
             (definir_tipo_de_valor_spec (Some "1e") ColFloat)))))
             "1e" eq_refl H1e).
  - exact (proj1 (proj2 (definir_tipo_de_valor_spec (Some " x ") ColText))
             " x " eq_refl (or_intror (or_introl eq_refl))).
  - exact (proj1 (definir_tipo_de_valor_spec None ColFloat) eq_refl).
Defined.
